(** * electron-pdfjs: navigation state and render trigger of the PDF viewer

A shallow embedding of the viewer components of the repository:

- [MainPage] embeds [src/src/MainPage.tsx], the component mounted by
  [src/src/main.tsx]: its React state, its two refs, and the handlers
  [renderPage], [loadPdf], [handleOpenPdf], [goToPage],
  [handlePageInput], [handleDrop] and the page buttons;
- [App] embeds [src/src/App.tsx]: the [App] component and its child
  [PdfViewer] with the page-loading effect and the render effect.

The asynchronous handlers are embedded as run-to-completion functions in
a state-and-exception monad: an [await] on an external promise reads the
outcome (resolved or rejected) that the environment supplies, and a promise
that nothing settles leaves the handler pending.  Loads that overlap at the
[await] of the document are embedded in [MainPage.interleave].  The pdf.js
library, the Electron bridge and the DOM are the environment: a document
handle is a record of its [numPages] and of what [getPage] answers, a page
is a record of what [getViewport] and [render] answer, and every call made
to the library is appended to a log kept next to the component state.

Page numbers are JavaScript numbers that hold integers (they come from
[parseInt], from [numPages] and from adding or subtracting one), so they
are embedded as [Z]; what else [parseInt] can return, [NaN] and the
infinities, is kept apart in [Js.parsed].  Scales and pixel sizes are
binary64 numbers and are embedded as primitive floats. *)

From Stdlib Require Import ZArith String Ascii List Bool Lia.
From Stdlib Require Import Floats.PrimFloat.
Import ListNotations.

Local Open Scope string_scope.
Local Open Scope Z_scope.

(* ------------------------------------------------------------------ *)
(** ** JavaScript values and built-ins used by the components *)

Module Js.

(** What a [catch] clause receives: an [Error] object with its message, or
    any other thrown value ([err instanceof Error] is false). *)
Inductive thrown : Type :=
| ErrorObject (message : string)
| OtherValue.

(** [err instanceof Error ? err.message : fallback] *)
Definition message_or (fallback : string) (err : thrown) : string :=
  match err with
  | ErrorObject m => m
  | OtherValue => fallback
  end.

(** How an awaited promise (or a call that may throw) ends. *)
Inductive outcome (A : Type) : Type :=
| Resolved (a : A)
| Rejected (err : thrown).
Arguments Resolved {A} a.
Arguments Rejected {A} err.

(** Truthiness of a string: only the empty string is falsy. *)
Definition truthy (s : string) : bool :=
  match s with
  | EmptyString => false
  | String _ _ => true
  end.

(** [s || fallback] on strings. *)
Definition or_string (s fallback : string) : string :=
  if truthy s then s else fallback.

(** Truthiness of a number: [0], [-0] and [NaN] are falsy. *)
Definition truthy_number (x : float) : bool :=
  negb (PrimFloat.eqb x 0%float || PrimFloat.is_nan x).

(** [x || fallback] on numbers. *)
Definition or_number (x fallback : float) : float :=
  if truthy_number x then x else fallback.

(** [Object.is] on numbers, the comparison React applies to the entries of
    a dependency array. *)
Definition Object_is (x y : float) : bool := PrimFloat.Leibniz.eqb x y.

(** [s.startsWith(p)] *)
Definition startsWith (s p : string) : bool := String.prefix p s.

Definition is_path_separator (c : ascii) : bool :=
  Ascii.eqb c "/"%char || Ascii.eqb c "\"%char.

(** [s.split(/[\\/]/).pop()]: the text after the last slash or backslash.
    [cur] is the segment read so far. *)
Fixpoint last_segment (cur s : string) : string :=
  match s with
  | EmptyString => cur
  | String c rest =>
      if is_path_separator c
      then last_segment EmptyString rest
      else last_segment (cur ++ String c EmptyString)%string rest
  end.

Definition split_pop (s : string) : string := last_segment EmptyString s.

(** What the built-in [parseInt(text, 10)] returns: [NaN], an integral
    number, or an infinity (for a text with too many digits). *)
Inductive parsed : Type :=
| ParsedNaN
| ParsedInteger (n : Z)
| ParsedInfinity (negative : bool).

(** What becomes of the promise an [async] function returns: it settles,
    resolved or rejected, or it stays pending for ever. *)
Inductive settlement (A : Type) : Type :=
| Settles (o : outcome A)
| Pending.
Arguments Settles {A} o.
Arguments Pending {A}.

End Js.

(** An outcome stands for the promise that settles with it, also inside a
    pair of a settlement and a state. *)
Coercion Js.Settles : Js.outcome >-> Js.settlement.
Arguments pair {A B} & a b.

(* ------------------------------------------------------------------ *)
(** ** The rendering library (pdfjs-dist) as the components see it *)

Module PdfJs.

(** The result of [page.getViewport({ scale })]. *)
Record PageViewport : Type := mkViewport {
  width : float;
  height : float
}.

(** The argument of [page.render].  [canvasContext] is [true] for a 2D
    context and [false] for [null]; [transform] is absent when the caller
    passes none. *)
Record RenderParameters : Type := mkRenderParameters {
  canvasContext : bool;
  viewport : PageViewport;
  transform : option (list float)
}.

(** A page handle: what its methods answer.  [render] gives the outcome of
    the promise of the render task. *)
Record PDFPageProxy : Type := mkPage {
  getViewport : float -> PageViewport;
  render : RenderParameters -> Js.outcome unit
}.

(** A document handle. *)
Record PDFDocumentProxy : Type := mkDocument {
  numPages : Z;
  getPage : Z -> Js.outcome PDFPageProxy
}.

(** The argument of [getDocument]: a bare string, or an object with a URL
    and the character-map options. *)
Inductive DocumentSource : Type :=
| SrcString (src : string)
| SrcParams (url cMapUrl : string) (cMapPacked : bool).

(** One call made to the library. *)
Inductive Call : Type :=
| CallGetDocument (src : DocumentSource)
| CallGetPage (pageNum : Z)
| CallRender (page : PDFPageProxy) (params : RenderParameters).

Definition is_render (c : Call) : bool :=
  match c with
  | CallRender _ _ => true
  | _ => false
  end.

(** The render calls among a list of calls. *)
Definition renders (l : list Call) : list Call := filter is_render l.

End PdfJs.

(* ------------------------------------------------------------------ *)
(** ** The part of the DOM the components write *)

Module Dom.

(** A canvas element with the values assigned to its [width] and [height]
    attributes and to [style.width] and [style.height] (in pixels; absent
    when the component does not set them). *)
Record Canvas : Type := mkCanvas {
  width : float;
  height : float;
  style_width : option float;
  style_height : option float
}.

(** A child of a container: the [div] of class [pdf-page] that wraps a
    canvas, a bare canvas, or [Markup] for whatever React or an earlier
    render left there. *)
Inductive Node : Type :=
| PdfPageDiv (c : Canvas)
| CanvasNode (c : Canvas)
| Markup.

End Dom.

(* ------------------------------------------------------------------ *)
(** ** State and exceptions *)

Section Monad.

Variable S : Type.

(** A computation over the state [S]: the state it leaves and what becomes
    of it, completion, an exception, or a wait that never ends. *)
Definition M (A : Type) : Type := S -> Js.settlement A * S.

Definition ret {A} (a : A) : M A :=
  fun s => (Js.Settles (Js.Resolved a), s).

Definition bind {A B} (c : M A) (k : A -> M B) : M B :=
  fun s =>
    match c s with
    | (Js.Settles (Js.Resolved a), s') => k a s'
    | (Js.Settles (Js.Rejected e), s') => (Js.Settles (Js.Rejected e), s')
    | (Js.Pending, s') => (Js.Pending, s')
    end.

Definition throw {A} (e : Js.thrown) : M A :=
  fun s => (Js.Settles (Js.Rejected e), s).

(** [await p] for a promise whose outcome the environment has fixed. *)
Definition await {A} (p : Js.outcome A) : M A := fun s => (Js.Settles p, s).

(** [await] on a promise that nothing ever settles. *)
Definition never {A} : M A := fun s => (Js.Pending, s).

Definition gets {A} (f : S -> A) : M A :=
  fun s => (Js.Settles (Js.Resolved (f s)), s).

Definition modify (f : S -> S) : M unit :=
  fun s => (Js.Settles (Js.Resolved tt), f s).

(** [try { body } catch (err) { handler err }] *)
Definition try_catch {A} (body : M A) (handler : Js.thrown -> M A) : M A :=
  fun s =>
    match body s with
    | (Js.Settles (Js.Resolved a), s') => (Js.Settles (Js.Resolved a), s')
    | (Js.Settles (Js.Rejected e), s') => handler e s'
    | (Js.Pending, s') => (Js.Pending, s')
    end.

(** [try { body } finally { fin }]: [fin] runs on both exits of [body], not
    while [body] waits; when [fin] completes, the exit of [body] stands. *)
Definition try_finally {A} (body : M A) (fin : M unit) : M A :=
  fun s =>
    match body s with
    | (Js.Settles r, s') =>
        match fin s' with
        | (Js.Settles (Js.Resolved _), s'') => (Js.Settles r, s'')
        | (Js.Settles (Js.Rejected e), s'') =>
            (Js.Settles (Js.Rejected e), s'')
        | (Js.Pending, s'') => (Js.Pending, s'')
        end
    | (Js.Pending, s') => (Js.Pending, s')
    end.

(** The state a computation leaves. *)
Definition exec {A} (c : M A) (s : S) : S := snd (c s).

End Monad.

Arguments ret {S A} a.
Arguments bind {S A B} c k.
Arguments throw {S A} e.
Arguments await {S A} p.
Arguments never {S A}.
Arguments gets {S A} f.
Arguments modify {S} f.
Arguments try_catch {S A} body handler.
Arguments try_finally {S A} body fin.
Arguments exec {S A} c s.

Notation "x <- c ;; k" := (bind c (fun x => k))
(at level 61, c at next level, right associativity).
Notation "c ;; k" := (bind c (fun _ => k))
(at level 61, right associativity).

(* ------------------------------------------------------------------ *)
(** ** src/src/MainPage.tsx *)

Module MainPage.

Import Js PdfJs.

(** The six [useState] cells, the two refs ([pdfInstance.current] and the
    children of the element behind [viewerContainerRef.current], [None]
    while the ref is [null]), the calls made to the library so far and the
    labels passed to [console.error]. *)
Record State : Type := mkState {
  error : option string;
  isLoading : bool;
  title : string;
  currentPage : Z;
  totalPages : Z;
  isDragging : bool;
  pdfInstance : option PDFDocumentProxy;
  viewerContainer : option (list Dom.Node);
  calls : list Call;
  console : list string
}.

(** What the environment answers during one handler run. *)
Record Env : Type := mkEnv {
  (** [window.process.type] is truthy *)
  processType : bool;
  (** [window.electronAPI?.openPdf]: absent, or present with the outcome of
      the promise [openPdf()] returns ([None] inside it is [null]) *)
  electronAPI_openPdf : option (Js.outcome (option string));
  (** the browser file input: the object URL of the chosen file, [None] when
      no file is chosen *)
  fileInput : option string;
  (** [pdfjsLib.getDocument(src).promise] *)
  getDocument : DocumentSource -> Js.outcome PDFDocumentProxy;
  (** [window.devicePixelRatio] *)
  devicePixelRatio : float;
  (** [canvas.getContext('2d')] is not [null] *)
  getContext2d : bool;
  (** the built-in [parseInt(text, 10)] *)
  parseInt : string -> Js.parsed
}.

(** The state on mount, with the container [div] attached. *)
Definition initial : State :=
  {| error := None; isLoading := false; title := "Elegant PDF Viewer";
     currentPage := 1; totalPages := 0; isDragging := false;
     pdfInstance := None; viewerContainer := Some [Dom.Markup];
     calls := []; console := [] |}.

Definition setError (v : option string) (s : State) : State :=
  {| error := v; isLoading := isLoading s; title := title s;
     currentPage := currentPage s; totalPages := totalPages s;
     isDragging := isDragging s; pdfInstance := pdfInstance s;
     viewerContainer := viewerContainer s; calls := calls s;
     console := console s |}.

Definition setIsLoading (v : bool) (s : State) : State :=
  {| error := error s; isLoading := v; title := title s;
     currentPage := currentPage s; totalPages := totalPages s;
     isDragging := isDragging s; pdfInstance := pdfInstance s;
     viewerContainer := viewerContainer s; calls := calls s;
     console := console s |}.

Definition setTitle (v : string) (s : State) : State :=
  {| error := error s; isLoading := isLoading s; title := v;
     currentPage := currentPage s; totalPages := totalPages s;
     isDragging := isDragging s; pdfInstance := pdfInstance s;
     viewerContainer := viewerContainer s; calls := calls s;
     console := console s |}.

Definition setCurrentPage (v : Z) (s : State) : State :=
  {| error := error s; isLoading := isLoading s; title := title s;
     currentPage := v; totalPages := totalPages s;
     isDragging := isDragging s; pdfInstance := pdfInstance s;
     viewerContainer := viewerContainer s; calls := calls s;
     console := console s |}.

Definition setTotalPages (v : Z) (s : State) : State :=
  {| error := error s; isLoading := isLoading s; title := title s;
     currentPage := currentPage s; totalPages := v;
     isDragging := isDragging s; pdfInstance := pdfInstance s;
     viewerContainer := viewerContainer s; calls := calls s;
     console := console s |}.

Definition setIsDragging (v : bool) (s : State) : State :=
  {| error := error s; isLoading := isLoading s; title := title s;
     currentPage := currentPage s; totalPages := totalPages s;
     isDragging := v; pdfInstance := pdfInstance s;
     viewerContainer := viewerContainer s; calls := calls s;
     console := console s |}.

(** [pdfInstance.current = v] *)
Definition setPdfInstance (v : option PDFDocumentProxy) (s : State) : State :=
  {| error := error s; isLoading := isLoading s; title := title s;
     currentPage := currentPage s; totalPages := totalPages s;
     isDragging := isDragging s; pdfInstance := v;
     viewerContainer := viewerContainer s; calls := calls s;
     console := console s |}.

(** [container.innerHTML = ''; container.appendChild(node)] *)
Definition replaceChildren (node : Dom.Node) (s : State) : State :=
  {| error := error s; isLoading := isLoading s; title := title s;
     currentPage := currentPage s; totalPages := totalPages s;
     isDragging := isDragging s; pdfInstance := pdfInstance s;
     viewerContainer := Some [node]; calls := calls s;
     console := console s |}.

Definition logCall (c : Call) (s : State) : State :=
  {| error := error s; isLoading := isLoading s; title := title s;
     currentPage := currentPage s; totalPages := totalPages s;
     isDragging := isDragging s; pdfInstance := pdfInstance s;
     viewerContainer := viewerContainer s; calls := (calls s ++ [c])%list;
     console := console s |}.

Definition console_error (label : string) (s : State) : State :=
  {| error := error s; isLoading := isLoading s; title := title s;
     currentPage := currentPage s; totalPages := totalPages s;
     isDragging := isDragging s; pdfInstance := pdfInstance s;
     viewerContainer := viewerContainer s; calls := calls s;
     console := (console s ++ [label])%list |}.

(** A call to the library: logged, then awaited. *)
Definition call {A} (c : Call) (p : Js.outcome A) : M State A :=
  modify (logCall c) ;; await p.

(** An entry of [e.dataTransfer.files]. *)
Record DroppedFile : Type := mkFile {
  file_type : string;
  file_path : string
}.

Section Handlers.

Variable env : Env.

(** [window.devicePixelRatio || 1] *)
Definition pixelRatio : float := or_number (devicePixelRatio env) 1%float.

(** The canvas [renderPage] creates for a viewport. *)
Definition pageCanvas (viewport : PageViewport) : Dom.Canvas :=
  {| Dom.width := (PdfJs.width viewport * pixelRatio)%float;
     Dom.height := (PdfJs.height viewport * pixelRatio)%float;
     Dom.style_width := Some (PdfJs.width viewport);
     Dom.style_height := Some (PdfJs.height viewport) |}.

(** The argument [renderPage] gives to [page.render]. *)
Definition renderParameters (viewport : PageViewport) : RenderParameters :=
  {| canvasContext := true;
     viewport := viewport;
     transform :=
       Some [pixelRatio; 0; 0; pixelRatio; 0; 0]%float |}.

(** [renderPage(pageNum, container)].  The callers pass
    [viewerContainerRef.current] after checking it, so the container is the
    one of the state. *)
Definition renderPage (pageNum : Z) : M State unit :=
  inst <- gets pdfInstance ;;
  match inst with
  | None => ret tt
  | Some pdf =>
      try_catch
        (page <- call (CallGetPage pageNum) (getPage pdf pageNum) ;;
         let viewport := getViewport page 1.5%float in
         if negb (getContext2d env)
         then throw (ErrorObject "Could not get canvas context")
         else
           modify (replaceChildren (Dom.PdfPageDiv (pageCanvas viewport))) ;;
           call (CallRender page (renderParameters viewport))
                (render page (renderParameters viewport)))
        (fun err =>
           modify (console_error "Error rendering page:") ;;
           throw err)
  end.

(** The argument [loadPdf] gives to [getDocument]. *)
Definition documentSource (filePathOrUrl : string) : DocumentSource :=
  let isUrl :=
    startsWith filePathOrUrl "blob:" ||
    startsWith filePathOrUrl "http" ||
    startsWith filePathOrUrl "file:" in
  if isUrl
  then SrcParams filePathOrUrl "node_modules/pdfjs-dist/cmaps/" true
  else SrcString filePathOrUrl.

(** [loadPdf(filePathOrUrl)] *)
Definition loadPdf (filePathOrUrl : string) : M State unit :=
  try_finally
    (try_catch
       (modify (setIsLoading true) ;;
        modify (setError None) ;;
        let src := documentSource filePathOrUrl in
        pdf <- call (CallGetDocument src) (getDocument env src) ;;
        modify (setPdfInstance (Some pdf)) ;;
        modify (setTotalPages (numPages pdf)) ;;
        let fileName := or_string (split_pop filePathOrUrl) "PDF Document" in
        modify (setTitle fileName) ;;
        container <- gets viewerContainer ;;
        match container with
        | Some _ => renderPage 1
        | None => ret tt
        end)
       (fun err =>
          modify (console_error "Error loading PDF:") ;;
          modify (setError
                    (Some ("Error loading PDF: " ++
                           message_or "Unknown error" err)%string))))
    (modify (setIsLoading false)).

Definition isElectron : bool := processType env.

(** [handleOpenPdf()].  In the browser branch the promise returned is
    resolved by the [onchange] handler of the file input, which runs only
    when a file is chosen: with none chosen it stays pending. *)
Definition handleOpenPdf : M State unit :=
  try_catch
    (match isElectron, electronAPI_openPdf env with
     | true, Some openPdf =>
         filePath <- await openPdf ;;
         match filePath with
         | Some p =>
             if truthy p
             then modify (setCurrentPage 1) ;; loadPdf p
             else ret tt
         | None => ret tt
         end
     | _, _ =>
         match fileInput env with
         | Some fileUrl => modify (setCurrentPage 1) ;; loadPdf fileUrl
         | None => never
         end
     end)
    (fun err =>
       modify (console_error "Error opening PDF:") ;;
       modify (setError
                 (Some ("Error: " ++
                        message_or "Failed to open PDF" err)%string))).

(** The guard at the head of [goToPage]:
    [!pdfInstance.current || pageNum < 1 || pageNum > totalPages]. *)
Definition goToPage_rejects (s : State) (pageNum : Z) : bool :=
  match pdfInstance s with None => true | Some _ => false end
  || (pageNum <? 1) || (pageNum >? totalPages s).

(** [goToPage(pageNum)] *)
Definition goToPage (pageNum : Z) : M State unit :=
  fun s =>
    if goToPage_rejects s pageNum then ret tt s
    else
      try_finally
        (try_catch
           (modify (setIsLoading true) ;;
            modify (setCurrentPage pageNum) ;;
            container <- gets viewerContainer ;;
            match container with
            | Some _ => renderPage pageNum
            | None => ret tt
            end)
           (fun err =>
              modify (console_error "Error navigating to page:") ;;
              modify (setError
                        (Some ("Error navigating to page: " ++
                               message_or "Unknown error" err)%string))))
        (modify (setIsLoading false)) s.

(** [handlePageInput(e)] with [value] the text of the input.  An infinity is
    not [NaN], so [goToPage] is called with it; its guard then returns, an
    infinity being below 1 or above [totalPages]. *)
Definition handlePageInput (value : string) : M State unit :=
  match parseInt env value with
  | ParsedInteger pageNum => goToPage pageNum
  | ParsedInfinity _ => ret tt
  | ParsedNaN => ret tt
  end.

Definition handleDragOver : M State unit := modify (setIsDragging true).

Definition handleDragLeave : M State unit := modify (setIsDragging false).

(** [handleDrop(e)] with [files] the list [e.dataTransfer.files]. *)
Definition handleDrop (files : list DroppedFile) : M State unit :=
  modify (setIsDragging false) ;;
  match files with
  | file :: _ =>
      if (file_type file =? "application/pdf")%string
      then modify (setCurrentPage 1) ;; loadPdf (file_path file)
      else modify (setError (Some "Please drop a valid PDF file"))
  | [] => ret tt
  end.

(** The previous and next buttons, present when [totalPages > 0] and
    disabled as the markup says. *)
Definition clickPrevious : M State unit :=
  fun s =>
    if (totalPages s >? 0) && negb ((currentPage s <=? 1) || isLoading s)
    then goToPage (currentPage s - 1) s
    else ret tt s.

Definition clickNext : M State unit :=
  fun s =>
    if (totalPages s >? 0)
       && negb ((currentPage s >=? totalPages s) || isLoading s)
    then goToPage (currentPage s + 1) s
    else ret tt s.

(** What the user can do to the component.  Every handler may run in every
    state, also where the markup hides or disables the control that calls
    it; only the two buttons, whose argument is read off the state, carry
    their own condition. *)
Inductive Action : Type :=
| OpenPdf
| GoToPage (pageNum : Z)
| PageInput (value : string)
| Drop (files : list DroppedFile)
| DragOver
| DragLeave
| ClickPrevious
| ClickNext.

Definition perform (a : Action) : M State unit :=
  match a with
  | OpenPdf => handleOpenPdf
  | GoToPage pageNum => goToPage pageNum
  | PageInput value => handlePageInput value
  | Drop files => handleDrop files
  | DragOver => handleDragOver
  | DragLeave => handleDragLeave
  | ClickPrevious => clickPrevious
  | ClickNext => clickNext
  end.

End Handlers.

(** One action, run to completion against what the environment answers
    during it. *)
Definition step (s : State) (ea : Env * Action) : State :=
  exec (perform (fst ea) (snd ea)) s.

(** A sequence of actions in which each handler runs to its end before the
    next one starts.  Handlers that overlap at an [await] are the subject of
    [interleave] below. *)
Definition run (trace : list (Env * Action)) (s : State) : State :=
  fold_left step trace s.

(** *** Handlers that overlap *)

(** [loadPdf] stops at the [await] of [loadingTask.promise], and until that
    promise settles the component takes other events: the drop zone is never
    disabled, and the [finally] of any load brings the loading flag down,
    which enables the page controls again.  [loadPdf_begin] is [loadPdf] up
    to that [await]: the two setters and the call of [getDocument]. *)
Definition loadPdf_begin (filePathOrUrl : string) (s : State) : State :=
  logCall (CallGetDocument (documentSource filePathOrUrl))
    (setError None (setIsLoading true s)).

(** [loadPdf] from that [await] on, when the promise settles as [env]
    says. *)
Definition loadPdf_resume (env : Env) (filePathOrUrl : string)
  : M State unit :=
  try_finally
    (try_catch
       (pdf <- await (getDocument env (documentSource filePathOrUrl)) ;;
        modify (setPdfInstance (Some pdf)) ;;
        modify (setTotalPages (numPages pdf)) ;;
        let fileName := or_string (split_pop filePathOrUrl) "PDF Document" in
        modify (setTitle fileName) ;;
        container <- gets viewerContainer ;;
        match container with
        | Some _ => renderPage env 1
        | None => ret tt
        end)
       (fun err =>
          modify (console_error "Error loading PDF:") ;;
          modify (setError
                    (Some ("Error loading PDF: " ++
                           message_or "Unknown error" err)%string))))
    (modify (setIsLoading false)).

(** The file [handleOpenPdf] goes on to load, if any. *)
Definition chosenFile (env : Env) : option string :=
  match isElectron env, electronAPI_openPdf env with
  | true, Some openPdf =>
      match openPdf with
      | Resolved (Some p) => if truthy p then Some p else None
      | _ => None
      end
  | _, _ => fileInput env
  end.

(** The start of a handler.  The open-file handler with a file and the drop
    of a PDF run up to the [await] inside [loadPdf] and leave the load of
    that file in flight; nothing is left to do in them once [loadPdf]
    returns.  Every other action runs to its end. *)
Definition begins (env : Env) (a : Action) (s : State)
  : State * option string :=
  match a with
  | OpenPdf =>
      match chosenFile env with
      | Some p => (loadPdf_begin p (setCurrentPage 1 s), Some p)
      | None => (step s (env, a), None)
      end
  | Drop (file :: _) =>
      if (file_type file =? "application/pdf")%string
      then (loadPdf_begin (file_path file)
              (setCurrentPage 1 (setIsDragging false s)),
            Some (file_path file))
      else (step s (env, a), None)
  | _ => (step s (env, a), None)
  end.








(** The status the markup shows: the error banner whenever [error] is
    truthy, else the spinner while [isLoading], else the document or the
    placeholder according to [pdfInstance.current]. *)
Inductive Status : Type :=
| NoDocument
| Loading
| Ready (currentPage totalPages : Z)
| Error (message : string).

Definition status (s : State) : Status :=
  match error s with
  | Some m =>
      if truthy m then Error m
      else if isLoading s then Loading
      else match pdfInstance s with
           | Some _ => Ready (currentPage s) (totalPages s)
           | None => NoDocument
           end
  | None =>
      if isLoading s then Loading
      else match pdfInstance s with
           | Some _ => Ready (currentPage s) (totalPages s)
           | None => NoDocument
           end
  end.

(** The calls a run added to the log. *)
Definition issued (before after : State) (l : list Call) : Prop :=
  calls after = (calls before ++ l)%list.

(** The open-file handler in environment [env] obtains the file [p]: from
    the bridge in the Electron branch, from the file input otherwise. *)
Definition obtains (env : Env) (p : string) : Prop :=
  (processType env = true /\
   electronAPI_openPdf env = Some (Resolved (Some p)) /\
   truthy p = true)
  \/
  ((processType env = false \/ electronAPI_openPdf env = None) /\
   fileInput env = Some p).

(** Page [n] of [pdf] can be drawn in [env]: the library hands out the
    page, a 2D context exists and the render task completes. *)
Definition rendersPage (env : Env) (pdf : PDFDocumentProxy) (n : Z) : Prop :=
  exists page,
    getPage pdf n = Resolved page /\
    getContext2d env = true /\
    render page (renderParameters env (getViewport page 1.5%float))
      = Resolved tt.

(** Drawing page [n] of [pdf] in [env] throws [err]: the library refuses the
    page, or no 2D context exists, or the render task is rejected. *)
Definition renderFailure (env : Env) (pdf : PDFDocumentProxy) (n : Z)
    (err : thrown) : Prop :=
  match getPage pdf n with
  | Rejected e => err = e
  | Resolved page =>
      if getContext2d env
      then render page (renderParameters env (getViewport page 1.5%float))
           = Rejected err
      else err = ErrorObject "Could not get canvas context"
  end.

End MainPage.

(* ------------------------------------------------------------------ *)
(** ** src/src/App.tsx *)

Module App.

Import Js PdfJs.

(** *** The [App] component *)

(** The five [useState] cells of [App], the calls it made to the library
    and the labels it passed to [console.error]. *)
Record State : Type := mkState {
  pdfUrl : option string;
  error : option string;
  numPages : Z;
  currentPage : Z;
  scale : float;
  calls : list Call;
  console : list string
}.

Record Env : Type := mkEnv {
  (** [window.electronAPI]: absent, or present with the outcome of the
      promise [openPdf()] returns *)
  electronAPI_openPdf : option (Js.outcome (option string));
  (** [import('pdfjs-dist')] *)
  importPdfjs : Js.outcome unit;
  (** [pdfjsLib.getDocument(src).promise] *)
  getDocument : DocumentSource -> Js.outcome PDFDocumentProxy;
  (** [canvas.getContext('2d')] is not [null] *)
  getContext2d : bool
}.

Definition initial : State :=
  {| pdfUrl := None; error := None; numPages := 0; currentPage := 1;
     scale := 1.5%float; calls := []; console := [] |}.

Definition setPdfUrl (v : option string) (s : State) : State :=
  {| pdfUrl := v; error := error s; numPages := numPages s;
     currentPage := currentPage s; scale := scale s; calls := calls s;
     console := console s |}.

Definition setError (v : option string) (s : State) : State :=
  {| pdfUrl := pdfUrl s; error := v; numPages := numPages s;
     currentPage := currentPage s; scale := scale s; calls := calls s;
     console := console s |}.

Definition setNumPages (v : Z) (s : State) : State :=
  {| pdfUrl := pdfUrl s; error := error s; numPages := v;
     currentPage := currentPage s; scale := scale s; calls := calls s;
     console := console s |}.

Definition setCurrentPage (v : Z) (s : State) : State :=
  {| pdfUrl := pdfUrl s; error := error s; numPages := numPages s;
     currentPage := v; scale := scale s; calls := calls s;
     console := console s |}.


Definition logCall (c : Call) (s : State) : State :=
  {| pdfUrl := pdfUrl s; error := error s; numPages := numPages s;
     currentPage := currentPage s; scale := scale s;
     calls := (calls s ++ [c])%list; console := console s |}.

Definition console_error (label : string) (s : State) : State :=
  {| pdfUrl := pdfUrl s; error := error s; numPages := numPages s;
     currentPage := currentPage s; scale := scale s; calls := calls s;
     console := (console s ++ [label])%list |}.

(** The properties [App] passes to [PdfViewer]. *)
Record Props : Type := mkProps {
  file : string;
  pageNumber : Z;
  scale_prop : float
}.

(** *** The [PdfViewer] component *)

(** The two [useState] cells of [PdfViewer] and the one [div] it renders.
    [pageIdentity] counts the calls of [setPdfPage], each of which stores a
    page object the library has just created, so that two values of
    [pdfPage] are the same object exactly when the counter is the same.
    Both [return]s of the component give a [div] in the same place, so React
    keeps one element, changes its attributes and adds or removes the text
    nodes of the placeholder: [placeholder] says that the last commit made
    it the loading placeholder, without the id [pdf-canvas-container] (as it
    is before the first commit, when there is no element yet); [appended]
    holds the nodes the render effect appended to it by hand, which React
    does not touch. *)
Record Viewer : Type := mkViewer {
  pdfPage : option PDFPageProxy;
  pageIdentity : nat;
  loading : bool;
  placeholder : bool;
  appended : list Dom.Node;
  viewer_calls : list Call;
  viewer_console : list string
}.

(** What [document.getElementById('pdf-canvas-container')] finds: nothing
    while the element is the placeholder, else the element with the nodes
    appended to it. *)
Definition container (v : Viewer) : option (list Dom.Node) :=
  if placeholder v then None else Some (appended v).

(** [PdfViewer] before its first render has been committed. *)
Definition unmounted : Viewer :=
  {| pdfPage := None; pageIdentity := 0; loading := true;
     placeholder := true; appended := [];
     viewer_calls := []; viewer_console := [] |}.

Definition setPdfPage (page : PDFPageProxy) (v : Viewer) : Viewer :=
  {| pdfPage := Some page; pageIdentity := S (pageIdentity v);
     loading := loading v; placeholder := placeholder v;
     appended := appended v;
     viewer_calls := viewer_calls v; viewer_console := viewer_console v |}.

Definition setLoading (b : bool) (v : Viewer) : Viewer :=
  {| pdfPage := pdfPage v; pageIdentity := pageIdentity v;
     loading := b; placeholder := placeholder v;
     appended := appended v;
     viewer_calls := viewer_calls v; viewer_console := viewer_console v |}.

(** [container.innerHTML = ''; container.appendChild(node)] *)
Definition replaceChildren (node : Dom.Node) (v : Viewer) : Viewer :=
  {| pdfPage := pdfPage v; pageIdentity := pageIdentity v;
     loading := loading v; placeholder := placeholder v;
     appended := [node];
     viewer_calls := viewer_calls v; viewer_console := viewer_console v |}.

Definition viewer_logCall (c : Call) (v : Viewer) : Viewer :=
  {| pdfPage := pdfPage v; pageIdentity := pageIdentity v;
     loading := loading v; placeholder := placeholder v;
     appended := appended v;
     viewer_calls := (viewer_calls v ++ [c])%list;
     viewer_console := viewer_console v |}.

Definition viewer_console_error (label : string) (v : Viewer) : Viewer :=
  {| pdfPage := pdfPage v; pageIdentity := pageIdentity v;
     loading := loading v; placeholder := placeholder v;
     appended := appended v;
     viewer_calls := viewer_calls v;
     viewer_console := (viewer_console v ++ [label])%list |}.

(** What [PdfViewer] returns, committed to the document: the element is the
    placeholder when [loading], the container otherwise.  What was appended
    to it stays. *)
Definition commit (v : Viewer) : Viewer :=
  {| pdfPage := pdfPage v; pageIdentity := pageIdentity v;
     loading := loading v; placeholder := loading v;
     appended := appended v;
     viewer_calls := viewer_calls v; viewer_console := viewer_console v |}.

Section Components.

Variable env : Env.

(** [loadPdf(filePath)] of [App] *)
Definition loadPdf (filePath : string) : M State unit :=
  try_catch
    (await (importPdfjs env) ;;
     modify (logCall (CallGetDocument (SrcString filePath))) ;;
     pdf <- await (getDocument env (SrcString filePath)) ;;
     modify (setNumPages (PdfJs.numPages pdf)) ;;
     modify (setPdfUrl (Some filePath)) ;;
     modify (setError None))
    (fun err =>
       modify (setError (Some "Failed to load PDF. Please try another file.")) ;;
       modify (console_error "Error loading PDF:")).

(** [handleOpenPdf()] of [App].  Reading [openPdf] off an absent
    [window.electronAPI] throws a [TypeError]. *)
Definition handleOpenPdf : M State unit :=
  try_catch
    (filePath <-
       match electronAPI_openPdf env with
       | Some openPdf => await openPdf
       | None =>
           throw (ErrorObject
                    "Cannot read properties of undefined (reading 'openPdf')")
       end ;;
     match filePath with
     | Some p => if truthy p then loadPdf p else ret tt
     | None => ret tt
     end)
    (fun err =>
       modify (setError (Some "Failed to open file dialog")) ;;
       modify (console_error "Error opening file dialog:")).

(** The Previous and Next buttons: present when [pdfUrl] is truthy, disabled
    as the markup says. *)
Definition hasDocument (s : State) : bool :=
  match pdfUrl s with
  | Some u => truthy u
  | None => false
  end.

Definition clickPrevious : M State unit :=
  fun s =>
    if hasDocument s && negb (currentPage s <=? 1)
    then modify (setCurrentPage (Z.max 1 (currentPage s - 1))) s
    else ret tt s.

Definition clickNext : M State unit :=
  fun s =>
    if hasDocument s && negb (currentPage s >=? numPages s)
    then modify (setCurrentPage (Z.min (numPages s) (currentPage s + 1))) s
    else ret tt s.

(** The child [App] renders: [PdfViewer] with these properties when [error]
    is falsy and [pdfUrl] truthy. *)
Definition viewerProps (s : State) : option Props :=
  match error s with
  | Some (String _ _) => None
  | _ =>
      match pdfUrl s with
      | Some u =>
          if truthy u
          then Some {| file := u; pageNumber := currentPage s;
                       scale_prop := scale s |}
          else None
      | None => None
      end
  end.

(** The first effect of [PdfViewer], [loadPage()], with dependencies
    [[file, pageNumber]]. *)
Definition loadPage (props : Props) : M Viewer unit :=
  try_finally
    (try_catch
       (modify (setLoading true) ;;
        await (importPdfjs env) ;;
        modify (viewer_logCall (CallGetDocument (SrcString (file props)))) ;;
        pdf <- await (getDocument env (SrcString (file props))) ;;
        modify (viewer_logCall (CallGetPage (pageNumber props))) ;;
        page <- await (getPage pdf (pageNumber props)) ;;
        modify (setPdfPage page))
       (fun err =>
          modify (viewer_console_error "Error loading PDF page:")))
    (modify (setLoading false)).

(** The canvas the second effect creates for a viewport. *)
Definition viewerCanvas (viewport : PageViewport) : Dom.Canvas :=
  {| Dom.width := PdfJs.width viewport;
     Dom.height := PdfJs.height viewport;
     Dom.style_width := None;
     Dom.style_height := None |}.

(** The argument the second effect gives to [pdfPage.render]. *)
Definition viewerRenderParameters (viewport : PageViewport)
  : RenderParameters :=
  {| canvasContext := getContext2d env;
     viewport := viewport;
     transform := None |}.

(** The second effect of [PdfViewer], with dependencies [[pdfPage, scale]].
    The render task is not awaited. *)
Definition renderEffect (props : Props) : M Viewer unit :=
  page <- gets pdfPage ;;
  match page with
  | None => ret tt
  | Some pdfPage =>
      c <- gets container ;;
      match c with
      | None => ret tt
      | Some _ =>
          let viewport := getViewport pdfPage (scale_prop props) in
          modify (replaceChildren (Dom.CanvasNode (viewerCanvas viewport))) ;;
          modify
            (viewer_logCall
               (CallRender pdfPage (viewerRenderParameters viewport)))
      end
  end.

(** The first effect run to its end, followed by what React does with the
    state it leaves.  [setLoading(true)] makes the element the placeholder
    while the page loads, a commit in which no effect runs, the dependencies
    being unchanged.  [setPdfPage] and the final [setLoading(false)] are one
    batch: its commit makes the element the container again, with what it
    held, and runs the second effect when [pdfPage] is a new object. *)
Definition loadCycle (props : Props) : M Viewer unit :=
  before <- gets pageIdentity ;;
  loadPage props ;;
  modify commit ;;
  after <- gets pageIdentity ;;
  if (before =? after)%nat then ret tt else renderEffect props.

(** Mounting [PdfViewer]: both effects run; the second finds [pdfPage]
    still [null]. *)
Definition mount (props : Props) : Viewer :=
  exec (modify commit ;; renderEffect props ;; loadCycle props) unmounted.

(** [PdfViewer] rendered again with new properties: the commit, then the
    effects whose dependencies changed.  The second effect runs in that
    commit, before the first effect has passed its first [await]. *)
Definition update (old new : Props) : M Viewer unit :=
  modify commit ;;
  (if Object_is (scale_prop old) (scale_prop new)
   then ret tt
   else renderEffect new) ;;
  if (file old =? file new)%string && (pageNumber old =? pageNumber new)
  then ret tt
  else loadCycle new.

End Components.

End App.

(** The canvas size section 4.2 of the specification asks of every render:
    the viewport dimensions multiplied by the device pixel ratio. *)
Definition sizedByPixelRatio (devicePixelRatio : float)
    (viewport : PdfJs.PageViewport) (canvas : Dom.Canvas) : Prop :=
  Dom.width canvas = (PdfJs.width viewport * devicePixelRatio)%float /\
  Dom.height canvas = (PdfJs.height viewport * devicePixelRatio)%float.

(* ------------------------------------------------------------------ *)
(** ** Concrete documents, environments and states *)

Module Samples.

Import Js PdfJs.

(** A US-letter page whose render task completes. *)
Definition letterPage : PDFPageProxy :=
  {| getViewport := fun s =>
       {| PdfJs.width := (612 * s)%float; PdfJs.height := (792 * s)%float |};
     render := fun _ => Resolved tt |}.

(** A page whose render task is rejected. *)
Definition brokenPage : PDFPageProxy :=
  {| getViewport := getViewport letterPage;
     render := fun _ => Rejected (ErrorObject "Rendering cancelled") |}.

Definition fivePages : PDFDocumentProxy :=
  {| numPages := 5;
     getPage := fun n =>
       if (1 <=? n) && (n <=? 5) then Resolved letterPage
       else Rejected (ErrorObject "Invalid page request.") |}.

(** Three pages, none of which can be drawn. *)
Definition threeBrokenPages : PDFDocumentProxy :=
  {| numPages := 3; getPage := fun _ => Resolved brokenPage |}.

(** Electron, a display of pixel ratio 2; the dialog answers [dialog] and
    the library answers [parsed] for whatever it is asked to open. *)
Definition electron (dialog : Js.outcome (option string))
    (parsed : Js.outcome PDFDocumentProxy) : MainPage.Env :=
  {| MainPage.processType := true;
     MainPage.electronAPI_openPdf := Some dialog;
     MainPage.fileInput := None;
     MainPage.getDocument := fun _ => parsed;
     MainPage.devicePixelRatio := 2%float;
     MainPage.getContext2d := true;
     MainPage.parseInt := fun _ => ParsedNaN |}.

Definition desktop : MainPage.Env :=
  electron (Resolved (Some "/docs/report.pdf")) (Resolved fivePages).

Definition canceled : MainPage.Env :=
  electron (Resolved None) (Resolved fivePages).

Definition dialogFails : MainPage.Env :=
  electron (Rejected (ErrorObject "No handler registered for 'open-pdf'"))
           (Resolved fivePages).

Definition corrupt : MainPage.Env :=
  electron (Resolved (Some "/docs/notes.pdf"))
           (Rejected (ErrorObject "Invalid PDF structure."))%string.

Definition unrenderable : MainPage.Env :=
  electron (Resolved (Some "/docs/scan.pdf")) (Resolved threeBrokenPages).

(** [report.pdf] open on its first page, then on its third. *)
Definition loaded : MainPage.State :=
  exec (MainPage.handleOpenPdf desktop) MainPage.initial.

Definition onPage3 : MainPage.State :=
  exec (MainPage.goToPage desktop 3) loaded.

Definition textFile : MainPage.DroppedFile :=
  {| MainPage.file_type := "text/plain";
     MainPage.file_path := "/docs/readme.txt" |}.

(** The environment of [App]: the dialog answers [dialog], the library
    parses whatever it is given as [fivePages]. *)
Definition appEnv (dialog : Js.outcome (option string)) : App.Env :=
  {| App.electronAPI_openPdf := Some dialog;
     App.importPdfjs := Resolved tt;
     App.getDocument := fun _ => Resolved fivePages;
     App.getContext2d := true |}.

(** [App] after [report.pdf] has been opened, the properties it then gives
    to [PdfViewer], and [PdfViewer] mounted with them. *)
Definition opened : App.State :=
  exec (App.handleOpenPdf (appEnv (Resolved (Some "/docs/report.pdf"))))
       App.initial.

Definition reportProps : App.Props :=
  {| App.file := "/docs/report.pdf"; App.pageNumber := 1;
     App.scale_prop := 1.5%float |}.

Definition shown : App.Viewer :=
  App.mount (appEnv (Resolved None)) reportProps.

End Samples.

(* ------------------------------------------------------------------ *)
(** ** Conditions on states, texts and environments *)

Module Conditions.

Import Js PdfJs.

(** The page count shown is the one of the document held: [totalPages] is
    [numPages] of [pdfInstance.current], and 0 while there is none. *)
Definition handle_consistent (s : MainPage.State) : Prop :=
  match MainPage.pdfInstance s with
  | Some pdf => MainPage.totalPages s = numPages pdf
  | None => MainPage.totalPages s = 0
  end.

(** An error that is set is shown: the markup tests [error] for truthiness,
    which an empty message would fail. *)
Definition error_shown (s : MainPage.State) : Prop :=
  match MainPage.error s with
  | Some m => truthy m = true
  | None => True
  end.

(** A slash or a backslash occurs in the text. *)
Fixpoint has_separator (s : string) : bool :=
  match s with
  | EmptyString => false
  | String c rest => is_path_separator c || has_separator rest
  end.

(** The text [getDocument] is given inside its argument. *)
Definition sourceText (src : DocumentSource) : string :=
  match src with
  | SrcString t => t
  | SrcParams url _ _ => url
  end.

(** [1 <= currentPage <= numPages] in [App]. *)
Definition app_in_range (s : App.State) : Prop :=
  1 <= App.currentPage s <= App.numPages s.

(** The first effect of [PdfViewer] does not get its page in [env]: the
    import, the document or the page is refused. *)
Definition pageLoadFails (env : App.Env) (props : App.Props) : Prop :=
  match App.importPdfjs env with
  | Rejected _ => True
  | Resolved _ =>
      match App.getDocument env (SrcString (App.file props)) with
      | Rejected _ => True
      | Resolved pdf =>
          match getPage pdf (App.pageNumber props) with
          | Rejected _ => True
          | Resolved _ => False
          end
      end
  end.

(** What the specification asks of [goToPage(n)] on the document [pdf]:
    from [before] to [after], exactly one render call was added, for page
    [n]. *)
Definition rendersOnce (pdf : PDFDocumentProxy) (n : Z)
    (before after : MainPage.State) : Prop :=
  exists l page params,
    MainPage.issued before after l /\
    getPage pdf n = Resolved page /\
    renders l = [CallRender page params].



End Conditions.

(* ------------------------------------------------------------------ *)
(** ** More concrete environments and states *)

Module MoreSamples.

Import Js PdfJs.

(** The environment of [App] in which the dialog answers [scan.pdf] and the
    library parses it as a document of three pages. *)
Definition shortDocument : App.Env :=
  {| App.electronAPI_openPdf := Some (Resolved (Some "/docs/scan.pdf"));
     App.importPdfjs := Resolved tt;
     App.getDocument := fun _ => Resolved Samples.threeBrokenPages;
     App.getContext2d := true |}.

(** The environment of [App] in which the library hands out no page. *)
Definition noPages : App.Env :=
  {| App.electronAPI_openPdf := Some (Resolved None);
     App.importPdfjs := Resolved tt;
     App.getDocument := fun _ =>
       Resolved {| numPages := 5;
                   getPage := fun _ =>
                     Rejected (ErrorObject "Invalid page request.") |};
     App.getContext2d := true |}.

(** [App] with [report.pdf] open, after three clicks on Next. *)
Definition onPage4 : App.State :=
  exec App.clickNext (exec App.clickNext (exec App.clickNext Samples.opened)).

(** The properties of [PdfViewer] for the second page of [report.pdf]. *)
Definition secondPage : App.Props :=
  {| App.file := "/docs/report.pdf"; App.pageNumber := 2;
     App.scale_prop := 1.5%float |}.

(** A browser: no Electron process, no bridge, and the file input holding
    the object URL [picked] or nothing. *)
Definition browser (picked : option string) : MainPage.Env :=
  {| MainPage.processType := false;
     MainPage.electronAPI_openPdf := None;
     MainPage.fileInput := picked;
     MainPage.getDocument := fun _ => Resolved Samples.fivePages;
     MainPage.devicePixelRatio := 1%float;
     MainPage.getContext2d := true;
     MainPage.parseInt := fun _ => ParsedNaN |}.

(** Electron with [report.pdf] of five pages, where a canvas gives no 2D
    context. *)
Definition noContext : MainPage.Env :=
  {| MainPage.processType := true;
     MainPage.electronAPI_openPdf :=
       Some (Resolved (Some "/docs/report.pdf"));
     MainPage.fileInput := None;
     MainPage.getDocument := fun _ => Resolved Samples.fivePages;
     MainPage.devicePixelRatio := 2%float;
     MainPage.getContext2d := false;
     MainPage.parseInt := fun _ => ParsedNaN |}.












End MoreSamples.

(* ------------------------------------------------------------------ *)
(** ** Proofs about MainPage *)

Module MainPageProofs.

Import Js PdfJs MainPage.

Ltac unfold_monad :=
  unfold exec, call, bind, ret, throw, await, gets, modify,
    try_catch, try_finally in *.

(** Case analysis on an innermost scrutinee of the goal. *)
Ltac break_inner :=
  match goal with
  | |- context [match ?x with _ => _ end] =>
      lazymatch x with
      | context [match _ with _ => _ end] => fail
      | _ => destruct x eqn:?
      end
  end.

Local Arguments String.append : simpl never.

Ltac run_handler := unfold_monad; cbn; repeat (break_inner; cbn).

(** *** What each handler does to the navigation state *)

Lemma goToPage_rejects_spec s n :
  goToPage_rejects s n = true <->
  pdfInstance s = None \/ n < 1 \/ n > totalPages s.
Proof.
  unfold goToPage_rejects.
  rewrite !orb_true_iff, Z.ltb_lt, Z.gtb_gt.
  destruct (pdfInstance s); intuition congruence.
Qed.

Lemma goToPage_rejected env s n :
  goToPage_rejects s n = true -> goToPage env n s = (Resolved tt, s).
Proof. intros H. unfold goToPage. now rewrite H. Qed.

Lemma goToPage_accepted env s n :
  goToPage_rejects s n = false ->
  let s' := exec (goToPage env n) s in
  currentPage s' = n /\ totalPages s' = totalPages s /\
  isLoading s' = false /\ pdfInstance s' = pdfInstance s /\
  title s' = title s.
Proof.
  intros H. unfold goToPage, exec. rewrite H.
  unfold renderPage. run_handler; auto 10.
Qed.

Lemma loadPdf_state env p s :
  let s' := exec (loadPdf env p) s in
  currentPage s' = currentPage s /\ isLoading s' = false /\
  match getDocument env (documentSource p) with
  | Resolved pdf =>
      totalPages s' = numPages pdf /\ pdfInstance s' = Some pdf /\
      title s' = or_string (split_pop p) "PDF Document"
  | Rejected err =>
      totalPages s' = totalPages s /\ pdfInstance s' = pdfInstance s /\
      title s' = title s /\
      error s' = Some ("Error loading PDF: " ++ message_or "Unknown error" err) /\
      calls s' = (calls s ++ [CallGetDocument (documentSource p)])%list /\
      viewerContainer s' = viewerContainer s
  end.
Proof.
  unfold loadPdf, renderPage. run_handler; auto 10.
Qed.

Lemma loadPdf_completes env p s : fst (loadPdf env p s) = Resolved tt.
Proof.
  unfold loadPdf, renderPage. run_handler; auto.
  match goal with u : unit |- _ => now destruct u end.
Qed.

Lemma loadPdf_exec env p s : loadPdf env p s = (Resolved tt, exec (loadPdf env p) s).
Proof.
  unfold exec. pose proof (loadPdf_completes env p s) as H.
  destruct (loadPdf env p s); cbn in *; now subst.
Qed.

(** The open-file handler ends in one of three ways: it loads the file it
    obtained, it does nothing, or it reports the failure of the dialog. *)
Lemma handleOpenPdf_cases env s :
  (exists p, obtains env p /\
     handleOpenPdf env s = loadPdf env p (setCurrentPage 1 s)) \/
  (exists o, handleOpenPdf env s = (o, s) /\
             (o = Resolved tt \/
              (o = Pending /\
               (processType env = false \/ electronAPI_openPdf env = None) /\
               fileInput env = None))) \/
  (exists err,
     processType env = true /\
     electronAPI_openPdf env = Some (Rejected err) /\
     handleOpenPdf env s =
       (Resolved tt,
        setError (Some ("Error: " ++ message_or "Failed to open PDF" err))
          (console_error "Error opening PDF:" s))).
Proof.
  assert (Hbrowser :
    (processType env = false \/ electronAPI_openPdf env = None) ->
    (exists p, obtains env p /\
       try_catch
         (match fileInput env with
          | Some fileUrl => modify (setCurrentPage 1) ;; loadPdf env fileUrl
          | None => never
          end)
         (fun err =>
            modify (console_error "Error opening PDF:") ;;
            modify (setError
                      (Some ("Error: " ++ message_or "Failed to open PDF" err))))
         s = loadPdf env p (setCurrentPage 1 s)) \/
    fileInput env = None /\
    try_catch
      (match fileInput env with
       | Some fileUrl => modify (setCurrentPage 1) ;; loadPdf env fileUrl
       | None => never
       end)
      (fun err =>
         modify (console_error "Error opening PDF:") ;;
         modify (setError
                   (Some ("Error: " ++ message_or "Failed to open PDF" err))))
      s = (Pending, s)).
  { intros Hb. destruct (fileInput env) as [u|] eqn:Hf.
    - left. exists u. split; [right; auto|].
      unfold try_catch, bind, modify. cbn. now rewrite loadPdf_exec.
    - right. split; reflexivity. }
  unfold handleOpenPdf, isElectron.
  destruct (processType env) eqn:Hp.
  - destruct (electronAPI_openPdf env) as [[[p|]|err]|] eqn:Ha.
    + unfold try_catch, bind, await, modify, ret. cbn.
      destruct (truthy p) eqn:Ht.
      * left. exists p. split; [left; auto|]. cbn. now rewrite loadPdf_exec.
      * right; left. exists (Settles (Resolved tt)). auto.
    + right; left. exists (Settles (Resolved tt)). auto.
    + right; right. exists err. auto.
    + destruct Hbrowser as [H|[Hf H]]; [auto | auto |].
      right; left. exists Pending. auto 10.
  - destruct (electronAPI_openPdf env);
      (destruct Hbrowser as [H|[Hf H]]; [auto | auto |]);
      right; left; exists Pending; auto 10.
Qed.

Lemma handleDrop_nothing env s :
  handleDrop env [] s = (Resolved tt, setIsDragging false s).
Proof. reflexivity. Qed.

Lemma handleDrop_pdf env f rest s :
  (file_type f =? "application/pdf")%string = true ->
  handleDrop env (f :: rest) s =
    loadPdf env (file_path f) (setCurrentPage 1 (setIsDragging false s)).
Proof.
  intros H. unfold handleDrop, bind, modify. cbn. now rewrite H.
Qed.

Lemma handleDrop_other env f rest s :
  (file_type f =? "application/pdf")%string = false ->
  handleDrop env (f :: rest) s =
    (Resolved tt,
     setError (Some "Please drop a valid PDF file") (setIsDragging false s)).
Proof.
  intros H. unfold handleDrop, bind, modify. cbn. now rewrite H.
Qed.

(** *** The invariant *)




Lemma run_snoc trace ea s : run (trace ++ [ea]) s = step (run trace s) ea.
Proof. unfold run. now rewrite fold_left_app. Qed.


(** *** The loading flag *)

Lemma isLoading_step env a s :
  isLoading s = false -> isLoading (step s (env, a)) = false.
Proof.
  intros Hs.
  assert (Hgo : forall n, isLoading (exec (goToPage env n) s) = false).
  { intros n. destruct (goToPage_rejects s n) eqn:Hg.
    - unfold exec. now rewrite goToPage_rejected.
    - now destruct (goToPage_accepted env s n Hg) as (_ & _ & H & _). }
  unfold step. cbn [fst snd].
  destruct a; cbn [perform].
  - destruct (handleOpenPdf_cases env s)
      as [(p & _ & E)|[(o & E & _)|(err & _ & _ & E)]];
      unfold exec; rewrite E; auto.
    apply loadPdf_state.
  - apply Hgo.
  - unfold handlePageInput.
    destruct (parseInt env value) as [|n|b]; [exact Hs | apply Hgo | exact Hs].
  - destruct files as [|f rest]; [exact Hs|].
    destruct (file_type f =? "application/pdf")%string eqn:Hf; unfold exec.
    + rewrite (handleDrop_pdf env f rest s Hf). apply loadPdf_state.
    + rewrite (handleDrop_other env f rest s Hf). exact Hs.
  - exact Hs.
  - exact Hs.
  - unfold clickPrevious, exec.
    destruct ((totalPages s >? 0) && negb ((currentPage s <=? 1) || isLoading s));
      [apply Hgo | exact Hs].
  - unfold clickNext, exec.
    destruct ((totalPages s >? 0)
              && negb ((currentPage s >=? totalPages s) || isLoading s));
      [apply Hgo | exact Hs].
Qed.

(** C10.  The loading flag is down after every run of [loadPdf], and after
    every run of [goToPage] that passes the guard, whether the rendering
    succeeds or throws.  A run of [goToPage] stopped by the guard changes
    nothing, so the flag is down after it when it was down before it, which is
    when the controls that call [goToPage] are enabled.  Hence the flag is
    down after every sequence of actions. *)
Theorem isLoading_false_after :
  (forall env p s, isLoading (exec (loadPdf env p) s) = false) /\
  (forall env n s,
     goToPage_rejects s n = false ->
     isLoading (exec (goToPage env n) s) = false) /\
  (forall env n s,
     isLoading s = false -> isLoading (exec (goToPage env n) s) = false) /\
  (forall trace, isLoading (run trace initial) = false).
Proof.
  repeat split.
  - intros env p s. apply loadPdf_state.
  - intros env n s Hg.
    now destruct (goToPage_accepted env s n Hg) as (_ & _ & H & _).
  - intros env n s Hs. apply (isLoading_step env (GoToPage n) s Hs).
  - intros trace. induction trace as [|[env a] trace IH] using rev_ind.
    + reflexivity.
    + rewrite run_snoc. now apply isLoading_step.
Qed.

(** C3.  [goToPage(n)] with no document loaded, or [n < 1], or
    [n > totalPages], returns at once: the whole state (current page, page
    count, loading flag, error, title, document handle, container) is what it
    was, and the log of library calls with it, so nothing is rendered. *)
Theorem goToPage_out_of_range env s n :
  pdfInstance s = None \/ n < 1 \/ n > totalPages s ->
  goToPage env n s = (Resolved tt, s).
Proof.
  intros H. apply goToPage_rejected. now apply goToPage_rejects_spec.
Qed.

(** C2, amended.  With a document loaded, [1 <= n <= totalPages] and the
    container attached, [goToPage(n)] sets [currentPage] to [n] and runs
    [renderPage] once, for page [n]: the state it leaves is the one that
    single run leaves, with the loading flag down and the error set when the
    run threw.  In the log of the library, page [n] is requested once.  When
    the library delivers the page and the canvas gives a 2D context, exactly
    one render call follows, for the page handle returned, with the viewport
    of that page; when the library refuses the page or the canvas gives no
    2D context, no render call is made. *)
Theorem goToPage_in_range env s pdf n :
  pdfInstance s = Some pdf ->
  1 <= n <= totalPages s ->
  viewerContainer s <> None ->
  let s' := exec (goToPage env n) s in
  currentPage s' = n /\
  s' =
    (let entered := setCurrentPage n (setIsLoading true s) in
     match renderPage env n entered with
     | (Settles (Resolved _), rendered) => setIsLoading false rendered
     | (Settles (Rejected err), failed) =>
         setIsLoading false
           (setError
              (Some ("Error navigating to page: " ++
                     message_or "Unknown error" err))
              (console_error "Error navigating to page:" failed))
     | (Pending, waiting) => waiting
     end) /\
  exists l,
    issued s s' (CallGetPage n :: l) /\
    match getPage pdf n with
    | Resolved page =>
        if getContext2d env
        then l = [CallRender page
                    (renderParameters env (getViewport page 1.5%float))]
        else l = []
    | Rejected _ => l = []
    end.
Proof.
  intros Hpdf Hn Hc.
  assert (Hg : goToPage_rejects s n = false).
  { destruct (goToPage_rejects s n) eqn:Hg; [|reflexivity].
    apply goToPage_rejects_spec in Hg. rewrite Hpdf in Hg.
    destruct Hg as [Hg|Hg]; [discriminate|lia]. }
  split; [now destruct (goToPage_accepted env s n Hg)|].
  destruct (viewerContainer s) as [c|] eqn:Hv; [|contradiction].
  split.
  { unfold goToPage, exec. rewrite Hg.
    unfold try_finally, try_catch, bind, modify, gets. cbv beta iota.
    change (viewerContainer (setCurrentPage n (setIsLoading true s)))
      with (viewerContainer s).
    rewrite Hv.
    destruct (renderPage env n (setCurrentPage n (setIsLoading true s)))
      as [[[[]|err]|] s1]; reflexivity. }
  unfold goToPage, exec, issued. rewrite Hg.
  unfold renderPage. unfold_monad. cbn. rewrite Hv. cbn. rewrite Hpdf. cbn.
  destruct (getPage pdf n) as [page|err]; cbn.
  - destruct (getContext2d env); cbn.
    + eexists. split; [|reflexivity].
      destruct (render page _); cbn; now rewrite <- app_assoc.
    + now exists [].
  - now exists [].
Qed.


(** *** Opening a document *)

Lemma handleOpenPdf_obtains env p s :
  obtains env p ->
  handleOpenPdf env s = loadPdf env p (setCurrentPage 1 s).
Proof.
  unfold obtains, handleOpenPdf, isElectron.
  intros [(Hp & Ha & Ht)|(Hb & Hf)].
  - rewrite Hp, Ha. unfold try_catch, bind, await, modify. cbn.
    rewrite Ht. cbn. now rewrite loadPdf_exec.
  - assert (E : try_catch
        (modify (setCurrentPage 1) ;; loadPdf env p)
        (fun err =>
           modify (console_error "Error opening PDF:") ;;
           modify (setError
                     (Some ("Error: " ++ message_or "Failed to open PDF" err))))
        s = loadPdf env p (setCurrentPage 1 s)).
    { unfold try_catch, bind, modify. cbn. now rewrite loadPdf_exec. }
    destruct Hb as [Hb|Hb]; rewrite Hb, ?Hf.
    + destruct (electronAPI_openPdf env); exact E.
    + destruct (processType env); exact E.
Qed.

Lemma loadPdf_rendered env p s pdf :
  getDocument env (documentSource p) = Resolved pdf ->
  rendersPage env pdf 1 \/ viewerContainer s = None ->
  error (exec (loadPdf env p) s) = None.
Proof.
  intros Hd Hr. unfold loadPdf, renderPage. unfold_monad. cbn.
  rewrite Hd. cbn.
  destruct (viewerContainer s) eqn:Hv; cbn; [|reflexivity].
  destruct Hr as [(page & Hpage & Hctx & Hrender)|Hr]; [|discriminate].
  rewrite Hpage. cbn. rewrite Hctx. cbn. rewrite Hrender. reflexivity.
Qed.

(** C5.  When the open-file handler obtains a file that the library parses
    into a document of [k] pages, it leaves [totalPages = k] and
    [currentPage = 1], holds the new document handle and has the loading flag
    down; when the first page is drawn as well, no error is set and the
    status is [Ready 1 k]. *)
Theorem open_document env s p pdf :
  obtains env p ->
  getDocument env (documentSource p) = Resolved pdf ->
  let s' := exec (handleOpenPdf env) s in
  totalPages s' = numPages pdf /\
  currentPage s' = 1 /\
  pdfInstance s' = Some pdf /\
  isLoading s' = false /\
  (rendersPage env pdf 1 \/ viewerContainer s = None ->
   error s' = None /\ status s' = Ready 1 (numPages pdf)).
Proof.
  intros Ho Hd s'. subst s'. unfold exec.
  rewrite (handleOpenPdf_obtains env p s Ho).
  destruct (loadPdf_state env p (setCurrentPage 1 s)) as (Hc & Hl & H).
  rewrite Hd in H. destruct H as (Ht & Hi & _).
  pose proof (loadPdf_rendered env p (setCurrentPage 1 s) pdf Hd) as He.
  unfold exec in *. cbn in Hc, He.
  split; [exact Ht|]. split; [exact Hc|]. split; [exact Hi|].
  split; [exact Hl|].
  intros Hr. specialize (He Hr). split; [exact He|].
  unfold status. now rewrite He, Hl, Hi, Hc, Ht.
Qed.

(** *** Dropping a file *)

Lemma loadPdf_calls env p s :
  exists l,
    issued s (exec (loadPdf env p) s)
      (CallGetDocument (documentSource p) :: l).
Proof.
  unfold issued, loadPdf, renderPage. run_handler;
    repeat rewrite <- app_assoc; cbn; eexists; reflexivity.
Qed.

(** C6.  A drop whose file is not of type [application/pdf] sets the error
    message, so that the status is [Error], and leaves the current page, the
    page count, the document handle, the loading flag, the title and the
    container as they were, with no call to the library.  The library is
    asked to open a dropped file exactly when the type of the file is
    [application/pdf]. *)
Theorem drop_non_pdf :
  (forall env s f rest,
     file_type f <> "application/pdf" ->
     let s' := exec (handleDrop env (f :: rest)) s in
     error s' = Some "Please drop a valid PDF file" /\
     status s' = Error "Please drop a valid PDF file" /\
     currentPage s' = currentPage s /\
     totalPages s' = totalPages s /\
     pdfInstance s' = pdfInstance s /\
     isLoading s' = isLoading s /\
     title s' = title s /\
     viewerContainer s' = viewerContainer s /\
     calls s' = calls s) /\
  (forall env s files,
     let s' := exec (handleDrop env files) s in
     match files with
     | f :: _ =>
         if (file_type f =? "application/pdf")%string
         then exists l,
                issued s s'
                  (CallGetDocument (documentSource (file_path f)) :: l)
         else calls s' = calls s
     | [] => calls s' = calls s
     end).
Proof.
  split.
  - intros env s f rest Hf s'. subst s'.
    apply String.eqb_neq in Hf.
    unfold exec. rewrite (handleDrop_other env f rest s Hf). cbn. auto 10.
  - intros env s files s'. subst s'.
    destruct files as [|f rest]; [reflexivity|].
    destruct (file_type f =? "application/pdf")%string eqn:Hf; unfold exec.
    + rewrite (handleDrop_pdf env f rest s Hf).
      apply (loadPdf_calls env (file_path f)
               (setCurrentPage 1 (setIsDragging false s))).
    + now rewrite (handleDrop_other env f rest s Hf).
Qed.

(** *** Failures *)

(** C4, amended.  Every failure is caught and sets a message.  A failing
    file dialog and a dropped file of another type leave [currentPage] and
    [totalPages] as they were.  A document that fails to load, from the
    open-file handler or from a drop, leaves [totalPages] and the document
    handle as they were, with [currentPage] at [1], where the handler put it
    before loading.  A first page that fails to render, after either handler
    got the document, leaves [currentPage = 1] with the page count and the
    handle of the new document.  A page that fails to render in
    [goToPage(n)] leaves [currentPage = n], and [totalPages] and the document
    handle as they were. *)
Theorem failures_reported :
  (forall env s err,
     processType env = true ->
     electronAPI_openPdf env = Some (Rejected err) ->
     let s' := exec (handleOpenPdf env) s in
     error s' = Some ("Error: " ++ message_or "Failed to open PDF" err) /\
     currentPage s' = currentPage s /\ totalPages s' = totalPages s) /\
  (forall env s f rest,
     file_type f <> "application/pdf" ->
     let s' := exec (handleDrop env (f :: rest)) s in
     error s' = Some "Please drop a valid PDF file" /\
     currentPage s' = currentPage s /\ totalPages s' = totalPages s) /\
  (forall env s p err,
     obtains env p ->
     getDocument env (documentSource p) = Rejected err ->
     let s' := exec (handleOpenPdf env) s in
     error s' = Some ("Error loading PDF: " ++ message_or "Unknown error" err) /\
     currentPage s' = 1 /\ totalPages s' = totalPages s /\
     pdfInstance s' = pdfInstance s) /\
  (forall env s f rest err,
     file_type f = "application/pdf" ->
     getDocument env (documentSource (file_path f)) = Rejected err ->
     let s' := exec (handleDrop env (f :: rest)) s in
     error s' = Some ("Error loading PDF: " ++ message_or "Unknown error" err) /\
     currentPage s' = 1 /\ totalPages s' = totalPages s /\
     pdfInstance s' = pdfInstance s) /\
  (forall env s p pdf err,
     obtains env p ->
     getDocument env (documentSource p) = Resolved pdf ->
     viewerContainer s <> None ->
     renderFailure env pdf 1 err ->
     let s' := exec (handleOpenPdf env) s in
     error s' = Some ("Error loading PDF: " ++ message_or "Unknown error" err) /\
     currentPage s' = 1 /\ totalPages s' = numPages pdf /\
     pdfInstance s' = Some pdf) /\
  (forall env s f rest pdf err,
     file_type f = "application/pdf" ->
     getDocument env (documentSource (file_path f)) = Resolved pdf ->
     viewerContainer s <> None ->
     renderFailure env pdf 1 err ->
     let s' := exec (handleDrop env (f :: rest)) s in
     error s' = Some ("Error loading PDF: " ++ message_or "Unknown error" err) /\
     currentPage s' = 1 /\ totalPages s' = numPages pdf /\
     pdfInstance s' = Some pdf) /\
  (forall env s pdf n err,
     pdfInstance s = Some pdf ->
     1 <= n <= totalPages s ->
     viewerContainer s <> None ->
     renderFailure env pdf n err ->
     let s' := exec (goToPage env n) s in
     error s' =
       Some ("Error navigating to page: " ++ message_or "Unknown error" err) /\
     currentPage s' = n /\ totalPages s' = totalPages s /\
     pdfInstance s' = pdfInstance s).
Proof.
  assert (Hrefused : forall env p s err,
    getDocument env (documentSource p) = Rejected err ->
    let s' := exec (loadPdf env p) (setCurrentPage 1 s) in
    error s' = Some ("Error loading PDF: " ++ message_or "Unknown error" err) /\
    currentPage s' = 1 /\ totalPages s' = totalPages s /\
    pdfInstance s' = pdfInstance s).
  { intros env p s err Hd.
    destruct (loadPdf_state env p (setCurrentPage 1 s)) as (Hc & _ & H).
    rewrite Hd in H. destruct H as (Ht & Hi & _ & He & _).
    cbv zeta. auto. }
  assert (Hfirst : forall env p s pdf err,
    getDocument env (documentSource p) = Resolved pdf ->
    viewerContainer s <> None ->
    renderFailure env pdf 1 err ->
    let s' := exec (loadPdf env p) (setCurrentPage 1 s) in
    error s' = Some ("Error loading PDF: " ++ message_or "Unknown error" err) /\
    currentPage s' = 1 /\ totalPages s' = numPages pdf /\
    pdfInstance s' = Some pdf).
  { intros env p s pdf err Hd Hv Hf.
    destruct (loadPdf_state env p (setCurrentPage 1 s)) as (Hc & _ & H).
    rewrite Hd in H. destruct H as (Ht & Hi & _).
    cbv zeta. split; [|auto].
    clear Hc Ht Hi. unfold renderFailure in Hf.
    unfold loadPdf, renderPage. unfold_monad. cbn. rewrite Hd. cbn.
    destruct (viewerContainer s) eqn:Hv'; [|contradiction]. cbn.
    destruct (getPage pdf 1) as [page|e]; cbn.
    + destruct (getContext2d env); cbn.
      * now rewrite Hf.
      * now subst err.
    + now subst err. }
  split; [|split; [|split; [|split; [|split; [|split]]]]].
  - intros env s err Hp Ha s'. subst s'.
    unfold exec, handleOpenPdf, isElectron. rewrite Hp, Ha. cbn. auto.
  - intros env s f rest Hf s'. subst s'.
    apply String.eqb_neq in Hf.
    unfold exec. rewrite (handleDrop_other env f rest s Hf). cbn. auto.
  - intros env s p err Ho Hd s'. subst s'. unfold exec.
    rewrite (handleOpenPdf_obtains env p s Ho).
    exact (Hrefused env p s err Hd).
  - intros env s f rest err Hf Hd s'. subst s'. unfold exec.
    apply String.eqb_eq in Hf.
    rewrite (handleDrop_pdf env f rest s Hf).
    exact (Hrefused env (file_path f) (setIsDragging false s) err Hd).
  - intros env s p pdf err Ho Hd Hv Hf s'. subst s'. unfold exec.
    rewrite (handleOpenPdf_obtains env p s Ho).
    exact (Hfirst env p s pdf err Hd Hv Hf).
  - intros env s f rest pdf err Hf Hd Hv Hr s'. subst s'. unfold exec.
    apply String.eqb_eq in Hf.
    rewrite (handleDrop_pdf env f rest s Hf).
    exact (Hfirst env (file_path f) (setIsDragging false s) pdf err Hd Hv Hr).
  - intros env s pdf n err Hpdf Hn Hv Hf s'. subst s'.
    assert (Hg : goToPage_rejects s n = false).
    { destruct (goToPage_rejects s n) eqn:Hg; [|reflexivity].
      apply goToPage_rejects_spec in Hg. rewrite Hpdf in Hg.
      destruct Hg as [Hg|Hg]; [discriminate|lia]. }
    destruct (goToPage_accepted env s n Hg) as (Hc & Ht & _ & Hi & _).
    split; [|auto]. clear Hc Ht Hi.
    unfold renderFailure in Hf.
    unfold goToPage, exec. rewrite Hg. unfold renderPage. unfold_monad. cbn.
    destruct (viewerContainer s) eqn:Hv'; [|contradiction]. cbn.
    rewrite Hpdf. cbn.
    destruct (getPage pdf n) as [page|e]; cbn.
    + destruct (getContext2d env); cbn.
      * now rewrite Hf.
      * now subst err.
    + now subst err.
Qed.

(** *** Loads that overlap *)

(** [loadPdf] is its start followed by its end. *)
Lemma loadPdf_split env p s :
  loadPdf env p s = loadPdf_resume env p (loadPdf_begin p s).
Proof. reflexivity. Qed.

Lemma chosenFile_obtains env p : chosenFile env = Some p -> obtains env p.
Proof.
  unfold chosenFile, obtains, isElectron.
  destruct (processType env); [|auto].
  destruct (electronAPI_openPdf env) as [[[q|]|err]|]; try discriminate; auto.
  destruct (truthy q) eqn:Ht; [|discriminate].
  intros [= ->]. auto.
Qed.

(** A handler whose load settles before anything else happens is the
    handler run to its end. *)
Lemma begins_then_settles env a s :
  step s (env, a) =
    match begins env a s with
    | (started, Some p) => exec (loadPdf_resume env p) started
    | (ended, None) => ended
    end.
Proof.
  unfold begins. destruct a; try reflexivity.
  - destruct (chosenFile env) as [p|] eqn:Hc; [|reflexivity].
    unfold step, exec. cbn [fst snd perform].
    rewrite (handleOpenPdf_obtains env p s (chosenFile_obtains env p Hc)).
    now rewrite loadPdf_split.
  - destruct files as [|f rest]; [reflexivity|].
    destruct (file_type f =? "application/pdf")%string eqn:Hf; [|reflexivity].
    unfold step, exec. cbn [fst snd perform].
    rewrite (handleDrop_pdf env f rest s Hf). now rewrite loadPdf_split.
Qed.


(** *** The theorems at concrete inputs *)

Lemma loaded_state :
  pdfInstance Samples.loaded = Some Samples.fivePages /\
  totalPages Samples.loaded = 5 /\
  currentPage Samples.loaded = 1 /\
  viewerContainer Samples.loaded <> None.
Proof.
  repeat split; try (vm_compute; reflexivity).
  vm_compute. discriminate.
Qed.

Lemma onPage3_state :
  totalPages Samples.onPage3 = 5 /\ currentPage Samples.onPage3 = 3.
Proof. split; vm_compute; reflexivity. Qed.


Lemma isLoading_false_after_witness :
  goToPage_rejects Samples.loaded 3 = false /\
  isLoading (exec (goToPage Samples.unrenderable 3) Samples.loaded) = false.
Proof.
  assert (H : goToPage_rejects Samples.loaded 3 = false)
    by (vm_compute; reflexivity).
  split; [exact H|].
  exact (proj1 (proj2 isLoading_false_after) Samples.unrenderable 3
           Samples.loaded H).
Defined.

Lemma goToPage_out_of_range_witness :
  6 > totalPages Samples.loaded /\
  goToPage Samples.desktop 6 Samples.loaded = (Resolved tt, Samples.loaded).
Proof.
  assert (H : 6 > totalPages Samples.loaded).
  { destruct loaded_state as (_ & -> & _). lia. }
  split; [exact H|].
  apply (goToPage_out_of_range Samples.desktop Samples.loaded 6).
  right; right; exact H.
Defined.

Lemma goToPage_in_range_witness :
  let s' := exec (goToPage Samples.desktop 3) Samples.loaded in
  currentPage s' = 3 /\
  issued Samples.loaded s'
    [CallGetPage 3;
     CallRender Samples.letterPage
       (renderParameters Samples.desktop
          (getViewport Samples.letterPage 1.5%float))].
Proof.
  destruct loaded_state as (Hpdf & Ht & _ & Hv).
  assert (Hn : 1 <= 3 <= totalPages Samples.loaded) by (rewrite Ht; lia).
  destruct (goToPage_in_range Samples.desktop Samples.loaded
              Samples.fivePages 3 Hpdf Hn Hv) as (Hc & _ & l & Hi & Hl).
  cbn in Hl. subst l. split; [exact Hc | exact Hi].
Defined.

Lemma open_document_witness :
  let s' := exec (handleOpenPdf Samples.desktop) initial in
  totalPages s' = 5 /\ currentPage s' = 1 /\ status s' = Ready 1 5.
Proof.
  assert (Ho : obtains Samples.desktop "/docs/report.pdf")
    by (left; repeat split).
  assert (Hd : getDocument Samples.desktop (documentSource "/docs/report.pdf")
               = Resolved Samples.fivePages) by reflexivity.
  assert (Hr : rendersPage Samples.desktop Samples.fivePages 1)
    by (exists Samples.letterPage; repeat split).
  destruct (open_document Samples.desktop initial "/docs/report.pdf"
              Samples.fivePages Ho Hd) as (Ht & Hc & _ & _ & H).
  destruct (H (or_introl Hr)) as (_ & Hs).
  repeat split; assumption.
Defined.

Lemma drop_non_pdf_witness :
  file_type Samples.textFile <> "application/pdf" /\
  let s' := exec (handleDrop Samples.desktop [Samples.textFile])
                 Samples.onPage3 in
  status s' = Error "Please drop a valid PDF file" /\
  currentPage s' = 3 /\ totalPages s' = 5.
Proof.
  assert (H : file_type Samples.textFile <> "application/pdf")
    by (cbn; discriminate).
  split; [exact H|].
  destruct (proj1 drop_non_pdf Samples.desktop Samples.onPage3
              Samples.textFile [] H) as (_ & Hs & Hc & Ht & _).
  destruct onPage3_state as [Et Ec].
  split; [exact Hs|]. split; [now rewrite Hc | now rewrite Ht].
Defined.

Lemma failures_reported_witness :
  obtains Samples.corrupt "/docs/notes.pdf" /\
  let s' := exec (handleOpenPdf Samples.corrupt) Samples.onPage3 in
  error s' = Some "Error loading PDF: Invalid PDF structure." /\
  currentPage s' = 1 /\ totalPages s' = 5 /\
  pdfInstance s' = pdfInstance Samples.onPage3.
Proof.
  assert (Ho : obtains Samples.corrupt "/docs/notes.pdf")
    by (left; repeat split).
  split; [exact Ho|].
  destruct (proj1 (proj2 (proj2 failures_reported))
              Samples.corrupt Samples.onPage3 "/docs/notes.pdf"
              (ErrorObject "Invalid PDF structure.") Ho eq_refl)
    as (He & Hc & Ht & Hi).
  destruct onPage3_state as [Et _].
  split; [exact He|]. split; [exact Hc|].
  split; [now rewrite Ht | exact Hi].
Defined.

(** C2 as the specification states it fails where a canvas gives no 2D
    context.  With [report.pdf] open, [goToPage(3)] sets the current page to
    3 and requests page 3, which the library delivers; the canvas has no
    context, and no render call is made. *)
Lemma goToPage_without_render :
  let s := Samples.loaded in
  let s' := exec (goToPage MoreSamples.noContext 3) s in
  pdfInstance s = Some Samples.fivePages /\
  1 <= 3 <= totalPages s /\
  getPage Samples.fivePages 3 = Resolved Samples.letterPage /\
  currentPage s' = 3 /\
  issued s s' [CallGetPage 3] /\
  ~ Conditions.rendersOnce Samples.fivePages 3 s s'.
Proof.
  cbv zeta.
  destruct loaded_state as (Hpdf & Ht & _ & _).
  assert (Hi : issued Samples.loaded
                 (exec (goToPage MoreSamples.noContext 3) Samples.loaded)
                 [CallGetPage 3])
    by (unfold issued; vm_compute; reflexivity).
  split; [exact Hpdf|]. split; [rewrite Ht; lia|].
  split; [reflexivity|]. split; [vm_compute; reflexivity|].
  split; [exact Hi|].
  intros (l & page & params & Hl & _ & Hr).
  unfold issued in Hi, Hl. rewrite Hi in Hl.
  apply app_inv_head in Hl. subst l. discriminate Hr.
Qed.

(** C4 as the specification states it fails for three of the four kinds of
    failure.  With [report.pdf] open on page 3, opening a file the library
    rejects is caught and reported, and leaves the page count at 5 but the
    current page at 1.  With [report.pdf] open on page 1, [goToPage(3)] with
    no 2D context is caught and reported, and leaves the current page at 3.
    With [report.pdf] open on page 3, opening [scan.pdf], whose first page
    fails to render, is caught and reported, and leaves the current page at
    1 and the page count at 3. *)
Lemma failures_move_navigation_state :
  (let s := Samples.onPage3 in
   let s' := exec (handleOpenPdf Samples.corrupt) s in
   error s' = Some "Error loading PDF: Invalid PDF structure." /\
   currentPage s = 3 /\ currentPage s' = 1 /\
   ~ (currentPage s' = currentPage s /\ totalPages s' = totalPages s)) /\
  (let s := Samples.loaded in
   let s' := exec (goToPage MoreSamples.noContext 3) s in
   error s' =
     Some "Error navigating to page: Could not get canvas context" /\
   currentPage s = 1 /\ currentPage s' = 3 /\
   ~ (currentPage s' = currentPage s /\ totalPages s' = totalPages s)) /\
  (let s := Samples.onPage3 in
   let s' := exec (handleOpenPdf Samples.unrenderable) s in
   error s' = Some "Error loading PDF: Rendering cancelled" /\
   (currentPage s = 3 /\ totalPages s = 5) /\
   (currentPage s' = 1 /\ totalPages s' = 3) /\
   ~ (currentPage s' = currentPage s /\ totalPages s' = totalPages s)).
Proof.
  cbv zeta.
  destruct onPage3_state as [Et Ec].
  destruct loaded_state as (_ & _ & Ec1 & _).
  assert (Hc : currentPage (exec (handleOpenPdf Samples.corrupt)
                              Samples.onPage3) = 1)
    by (vm_compute; reflexivity).
  assert (Hg : currentPage (exec (goToPage MoreSamples.noContext 3)
                              Samples.loaded) = 3)
    by (vm_compute; reflexivity).
  assert (Hu : currentPage (exec (handleOpenPdf Samples.unrenderable)
                              Samples.onPage3) = 1 /\
               totalPages (exec (handleOpenPdf Samples.unrenderable)
                             Samples.onPage3) = 3)
    by (split; vm_compute; reflexivity).
  split; [|split].
  - split; [vm_compute; reflexivity|].
    split; [exact Ec|]. split; [exact Hc|].
    rewrite Hc, Ec. intros [H _]. discriminate H.
  - split; [vm_compute; reflexivity|].
    split; [exact Ec1|]. split; [exact Hg|].
    rewrite Hg, Ec1. intros [H _]. discriminate H.
  - split; [vm_compute; reflexivity|].
    split; [split; assumption|]. split; [exact Hu|].
    destruct Hu as [-> ->]. rewrite Ec. intros [H _]. discriminate H.
Qed.

End MainPageProofs.

(* ------------------------------------------------------------------ *)
(** ** Proofs about App and PdfViewer *)

Module AppProofs.

Import Js PdfJs App Conditions.

Ltac unfold_monad :=
  unfold exec, bind, ret, throw, await, gets, modify,
    try_catch, try_finally in *.

(** A commit leaves the cells, the appended nodes and the logs alone, and
    makes the element the container when nothing is loading. *)
Lemma commit_keeps v :
  pdfPage (commit v) = pdfPage v /\
  pageIdentity (commit v) = pageIdentity v /\
  loading (commit v) = loading v /\
  appended (commit v) = appended v /\
  viewer_calls (commit v) = viewer_calls v /\
  viewer_console (commit v) = viewer_console v /\
  (loading v = false -> container (commit v) = Some (appended v)).
Proof.
  unfold commit, container. cbn. repeat split; auto.
  intros H. now rewrite H.
Qed.

Lemma commit_settled v :
  loading v = false -> container v <> None -> commit v = v.
Proof.
  unfold commit, container. destruct v as [p i l ph a c k]. cbn.
  intros -> H. destruct ph; [contradiction | reflexivity].
Qed.

(** What the render effect does once a page is held and the container is in
    the document. *)
Lemma renderEffect_draws env props v page c :
  pdfPage v = Some page ->
  container v = Some c ->
  let viewport := getViewport page (scale_prop props) in
  let v' := exec (renderEffect env props) v in
  container v' = Some [Dom.CanvasNode (viewerCanvas viewport)] /\
  viewer_calls v' =
    (viewer_calls v ++
     [CallRender page (viewerRenderParameters env viewport)])%list /\
  pdfPage v' = Some page /\
  loading v' = loading v /\
  pageIdentity v' = pageIdentity v.
Proof.
  intros Hp Hc. unfold renderEffect. unfold_monad. cbn.
  rewrite Hp. cbn. rewrite Hc. cbn.
  unfold container in *. cbn. destruct (placeholder v); [discriminate|].
  auto 10.
Qed.

Lemma identity_changed n : (n =? S n)%nat = false.
Proof. apply Nat.eqb_neq. apply Nat.neq_succ_diag_r. Qed.

(** The first effect and the commit that follows it, when the page is
    delivered. *)
Lemma loadCycle_draws env props v pdf page :
  importPdfjs env = Resolved tt ->
  getDocument env (SrcString (file props)) = Resolved pdf ->
  getPage pdf (pageNumber props) = Resolved page ->
  let viewport := getViewport page (scale_prop props) in
  let v' := exec (loadCycle env props) v in
  pdfPage v' = Some page /\ loading v' = false /\
  container v' = Some [Dom.CanvasNode (viewerCanvas viewport)] /\
  viewer_calls v' =
    (viewer_calls v ++
     [CallGetDocument (SrcString (file props));
      CallGetPage (pageNumber props);
      CallRender page (viewerRenderParameters env viewport)])%list /\
  viewer_console v' = viewer_console v.
Proof.
  intros Hi Hd Hg. unfold loadCycle, loadPage, renderEffect, container.
  unfold_monad. cbn. rewrite Hi. cbn. rewrite Hd. cbn. rewrite Hg. cbn.
  rewrite identity_changed. cbn. repeat rewrite <- app_assoc. cbn. auto.
Qed.

(** Mounting the viewer on a page the library delivers. *)
Lemma mount_holds_page env props pdf page :
  importPdfjs env = Resolved tt ->
  getDocument env (SrcString (file props)) = Resolved pdf ->
  getPage pdf (pageNumber props) = Resolved page ->
  let v := mount env props in
  pdfPage v = Some page /\ loading v = false /\
  container v =
    Some [Dom.CanvasNode
            (viewerCanvas (getViewport page (scale_prop props)))].
Proof.
  intros Hi Hd Hg. unfold mount.
  destruct (loadCycle_draws env props
              (exec (modify commit;; renderEffect env props) unmounted)
              pdf page Hi Hd Hg) as (H1 & H2 & H3 & _).
  auto.
Qed.







End AppProofs.

(* ------------------------------------------------------------------ *)
(** ** Facts about both components *)

Module BothComponents.

Import Js PdfJs.

(** C9.  When [openPdf()] resolves to [null], the open-file handler of
    [MainPage] (in its Electron branch, the one that calls the bridge) and
    the one of [App] return with the whole state as it was: current page,
    page count, loading flag, error, title, document handle, container and
    the log of library calls, so nothing is loaded or rendered. *)
Theorem cancel_is_noop :
  (forall env s,
     MainPage.processType env = true ->
     MainPage.electronAPI_openPdf env = Some (Resolved None) ->
     MainPage.handleOpenPdf env s = (Resolved tt, s)) /\
  (forall env s,
     App.electronAPI_openPdf env = Some (Resolved None) ->
     App.handleOpenPdf env s = (Resolved tt, s)).
Proof.
  split.
  - intros env s Hp Ha.
    unfold MainPage.handleOpenPdf, MainPage.isElectron. now rewrite Hp, Ha.
  - intros env s Ha. unfold App.handleOpenPdf. now rewrite Ha.
Qed.

Lemma cancel_is_noop_witness :
  MainPage.handleOpenPdf Samples.canceled Samples.onPage3
    = (Resolved tt, Samples.onPage3) /\
  App.handleOpenPdf (Samples.appEnv (Resolved None)) Samples.opened
    = (Resolved tt, Samples.opened).
Proof.
  split.
  - exact (proj1 cancel_is_noop Samples.canceled Samples.onPage3
             eq_refl eq_refl).
  - exact (proj2 cancel_is_noop (Samples.appEnv (Resolved None))
             Samples.opened eq_refl).
Defined.

(** C8, amended.  [renderPage] of [MainPage], when the library delivers the
    page and the canvas gives a 2D context, replaces what the container held
    by one new canvas, sized to the viewport of the page at the fixed scale
    1.5 multiplied by the device pixel ratio (by 1 when that ratio is falsy),
    and makes exactly one render call, for that page and that viewport; when
    the page is refused or there is no 2D context it leaves the container as
    it was and makes no render call.  The render effect of [PdfViewer], with
    a page held and its container in the document, replaces what the
    container held by one new canvas, sized to the viewport of the page at
    the scale property, without the pixel ratio, and makes exactly one render
    call, for that page and that viewport; with no page held or no container
    found it does nothing. *)
Theorem render_trigger :
  (forall env s pdf n page,
     MainPage.pdfInstance s = Some pdf ->
     getPage pdf n = Resolved page ->
     MainPage.getContext2d env = true ->
     let viewport := getViewport page 1.5%float in
     let ratio := or_number (MainPage.devicePixelRatio env) 1%float in
     let canvas :=
       {| Dom.width := (PdfJs.width viewport * ratio)%float;
          Dom.height := (PdfJs.height viewport * ratio)%float;
          Dom.style_width := Some (PdfJs.width viewport);
          Dom.style_height := Some (PdfJs.height viewport) |} in
     let s' := exec (MainPage.renderPage env n) s in
     MainPage.viewerContainer s' = Some [Dom.PdfPageDiv canvas] /\
     sizedByPixelRatio ratio viewport canvas /\
     MainPage.issued s s'
       [CallGetPage n;
        CallRender page
          {| canvasContext := true;
             viewport := viewport;
             transform := Some [ratio; 0; 0; ratio; 0; 0]%float |}]) /\
  (forall env s pdf n,
     MainPage.pdfInstance s = Some pdf ->
     match getPage pdf n with
     | Resolved _ => MainPage.getContext2d env = false
     | Rejected _ => True
     end ->
     let s' := exec (MainPage.renderPage env n) s in
     MainPage.viewerContainer s' = MainPage.viewerContainer s /\
     MainPage.issued s s' [CallGetPage n]) /\
  (forall env props v page,
     App.pdfPage v = Some page ->
     App.container v <> None ->
     let viewport := getViewport page (App.scale_prop props) in
     let v' := exec (App.renderEffect env props) v in
     App.container v' =
       Some [Dom.CanvasNode
               {| Dom.width := PdfJs.width viewport;
                  Dom.height := PdfJs.height viewport;
                  Dom.style_width := None;
                  Dom.style_height := None |}] /\
     App.viewer_calls v' =
       (App.viewer_calls v ++
        [CallRender page
           {| canvasContext := App.getContext2d env;
              viewport := viewport;
              transform := None |}])%list) /\
  (forall env props v,
     App.pdfPage v = None \/ App.container v = None ->
     App.renderEffect env props v = (Resolved tt, v)).
Proof.
  split; [|split; [|split]].
  - intros env s pdf n page Hpdf Hpage Hctx viewport ratio canvas s'.
    subst s' canvas ratio viewport.
    unfold MainPage.renderPage, MainPage.issued, MainPage.call,
      exec, bind, gets, modify, await, try_catch.
    cbn. rewrite Hpdf. cbn. rewrite Hpage. cbn. rewrite Hctx. cbn.
    destruct (render page _); cbn; rewrite <- app_assoc;
      repeat split; reflexivity.
  - intros env s pdf n Hpdf Hfail s'. subst s'.
    unfold MainPage.renderPage, MainPage.issued, MainPage.call,
      exec, bind, gets, modify, await, try_catch, throw.
    cbn. rewrite Hpdf. cbn.
    destruct (getPage pdf n) as [page|err]; cbn; [|split; reflexivity].
    rewrite Hfail. cbn. split; reflexivity.
  - intros env props v page Hpage Hc viewport v'.
    destruct (App.container v) as [c|] eqn:Ec; [|contradiction].
    destruct (AppProofs.renderEffect_draws env props v page c Hpage Ec)
      as (H1 & H2 & _).
    subst v' viewport. split; assumption.
  - intros env props v H.
    unfold App.renderEffect, bind, gets, ret. cbv beta iota.
    destruct H as [H|H].
    + now rewrite H.
    + destruct (App.pdfPage v); [|reflexivity].
      cbv beta iota. now rewrite H.
Qed.

Lemma render_trigger_witness :
  let s' := exec (MainPage.renderPage Samples.desktop 2) Samples.loaded in
  MainPage.viewerContainer s' =
    Some [Dom.PdfPageDiv
            {| Dom.width := 1836%float; Dom.height := 2376%float;
               Dom.style_width := Some 918%float;
               Dom.style_height := Some 1188%float |}].
Proof.
  destruct MainPageProofs.loaded_state as (Hpdf & _).
  exact (proj1 (proj1 render_trigger Samples.desktop Samples.loaded
                  Samples.fivePages 2 Samples.letterPage Hpdf
                  eq_refl eq_refl)).
Defined.

(** C8 as the specification states it fails in two ways.  On a display of
    pixel ratio 2, the canvas [PdfViewer] creates for the first page of
    [report.pdf] at scale 1.5 is 918 by 1188, the viewport itself, and not
    the viewport multiplied by the pixel ratio.  And when a canvas gives no
    2D context, [renderPage] of [MainPage], asked for page 2 of [report.pdf],
    gets the page from the library and then neither touches the container
    nor makes a render call. *)
Lemma render_trigger_fails :
  (let viewport := getViewport Samples.letterPage 1.5%float in
   exists canvas,
     App.container Samples.shown = Some [Dom.CanvasNode canvas] /\
     Dom.width canvas = 918%float /\
     Dom.height canvas = 1188%float /\
     ~ sizedByPixelRatio 2%float viewport canvas) /\
  (let s' :=
     exec (MainPage.renderPage MoreSamples.noContext 2) Samples.loaded in
   getPage Samples.fivePages 2 = Resolved Samples.letterPage /\
   MainPage.viewerContainer s' = MainPage.viewerContainer Samples.loaded /\
   MainPage.calls s' = (MainPage.calls Samples.loaded ++ [CallGetPage 2])%list /\
   renders [CallGetPage 2] = []).
Proof.
  split.
  - exists (App.viewerCanvas (getViewport Samples.letterPage 1.5%float)).
    repeat split; try (vm_compute; reflexivity).
    intros [H _].
    apply (f_equal (fun x => PrimFloat.eqb x 918%float)) in H.
    vm_compute in H. discriminate H.
  - cbv zeta. repeat split; vm_compute; reflexivity.
Qed.

End BothComponents.

(* ------------------------------------------------------------------ *)
(** ** More proofs about MainPage *)

Module MainPageMore.

Import Js PdfJs MainPage Conditions MainPageProofs.

(** *** No handler rejects *)

Lemma goToPage_completes env n s : fst (goToPage env n s) = Resolved tt.
Proof.
  unfold goToPage. destruct (goToPage_rejects s n); [reflexivity|].
  unfold renderPage. run_handler;
    repeat match goal with u : unit |- _ => destruct u end; reflexivity.
Qed.

Lemma goToPage_exec env n s :
  goToPage env n s = (Resolved tt, exec (goToPage env n) s).
Proof.
  unfold exec. pose proof (goToPage_completes env n s) as H.
  destruct (goToPage env n s); cbn in *; now subst.
Qed.

(** Every action completes, but for the open-file handler in the browser
    branch when no file is chosen, whose promise stays pending. *)
Lemma perform_completes env a s :
  fst (perform env a s) = Resolved tt \/
  a = OpenPdf /\
  (processType env = false \/ electronAPI_openPdf env = None) /\
  fileInput env = None /\
  perform env a s = (Pending, s).
Proof.
  destruct a; cbn [perform]; [| left ..].
  - destruct (handleOpenPdf_cases env s)
      as [(p & _ & E)|[(o & E & [->|(-> & Hb & Hf)])|(err & _ & _ & E)]];
      rewrite E; auto.
    left. apply loadPdf_completes.
  - apply goToPage_completes.
  - unfold handlePageInput. destruct (parseInt env value) as [|n|b];
      [reflexivity | apply goToPage_completes | reflexivity].
  - destruct files as [|f rest]; [reflexivity|].
    destruct (file_type f =? "application/pdf")%string eqn:Hf.
    + rewrite (handleDrop_pdf env f rest s Hf). apply loadPdf_completes.
    + now rewrite (handleDrop_other env f rest s Hf).
  - reflexivity.
  - reflexivity.
  - unfold clickPrevious.
    destruct ((totalPages s >? 0) && negb ((currentPage s <=? 1) || isLoading s));
      [apply goToPage_completes | reflexivity].
  - unfold clickNext.
    destruct ((totalPages s >? 0)
              && negb ((currentPage s >=? totalPages s) || isLoading s));
      [apply goToPage_completes | reflexivity].
Qed.

(** *** What [renderPage] leaves alone *)

(** X1.  [renderPage] never writes a state cell: the error, the loading
    flag, the title, the current page, the page count, the drag flag and the
    document handle are what they were, whether it draws, throws or
    returns at once; with no document loaded it leaves the container and the
    logs alone too. *)
Theorem renderPage_keeps_cells env n s :
  let s' := exec (renderPage env n) s in
  error s' = error s /\ isLoading s' = isLoading s /\ title s' = title s /\
  currentPage s' = currentPage s /\ totalPages s' = totalPages s /\
  isDragging s' = isDragging s /\ pdfInstance s' = pdfInstance s /\
  (pdfInstance s = None -> s' = s).
Proof.
  unfold renderPage. run_handler; repeat split; auto; discriminate.
Qed.

Lemma renderPage_keeps_cells_witness :
  exec (renderPage Samples.desktop 1) initial = initial.
Proof.
  destruct (renderPage_keeps_cells Samples.desktop 1 initial)
    as (_ & _ & _ & _ & _ & _ & _ & H).
  exact (H eq_refl).
Defined.


(** *** Invariants of the reachable states *)

Lemma loadPdf_cells env p s :
  let s' := exec (loadPdf env p) s in
  isDragging s' = isDragging s /\
  (error s' = None \/
   exists err,
     error s' = Some ("Error loading PDF: " ++ message_or "Unknown error" err)).
Proof.
  unfold loadPdf, renderPage. run_handler;
    (split; [reflexivity|]);
    first [ left; reflexivity
          | right; eexists; reflexivity
          | right; exists (ErrorObject "Could not get canvas context");
            reflexivity ].
Qed.

Lemma goToPage_cells env n s :
  let s' := exec (goToPage env n) s in
  title s' = title s /\ totalPages s' = totalPages s /\
  pdfInstance s' = pdfInstance s /\ isDragging s' = isDragging s /\
  (error s' = error s \/
   exists err,
     error s' =
       Some ("Error navigating to page: " ++ message_or "Unknown error" err)).
Proof.
  unfold goToPage, exec. destruct (goToPage_rejects s n); [cbn; auto 10|].
  unfold renderPage. run_handler;
    (split; [congruence|]); (split; [congruence|]);
    (split; [congruence|]); (split; [congruence|]);
    first [ left; reflexivity
          | right; eexists; reflexivity
          | right; exists (ErrorObject "Could not get canvas context");
            reflexivity ].
Qed.

(** Every action is a run of [goToPage], a run of [loadPdf] after
    [setCurrentPage(1)], or touches at most [error] and [isDragging]. *)
Lemma step_shape env a s :
  (exists n, step s (env, a) = exec (goToPage env n) s) \/
  (exists p d,
     step s (env, a)
       = exec (loadPdf env p) (setCurrentPage 1 (setIsDragging d s))) \/
  (exists e d, step s (env, a) = setError e (setIsDragging d s) /\
               (e = error s \/ exists m, e = Some m /\ truthy m = true) /\
               console (step s (env, a)) = console s) \/
  (exists err,
     step s (env, a) =
       setError (Some ("Error: " ++ message_or "Failed to open PDF" err))
         (console_error "Error opening PDF:" s)).
Proof.
  assert (Hsame : forall t : State, t = setError (error t) (setIsDragging (isDragging t) t))
    by (now intros []).
  unfold step. cbn [fst snd]. destruct a; cbn [perform].
  - destruct (handleOpenPdf_cases env s)
      as [(p & _ & E)|[(o & E & _)|(err & _ & _ & E)]];
      unfold exec; rewrite E.
    + right; left. exists p, (isDragging s).
      now replace (setIsDragging (isDragging s) s) with s by now destruct s.
    + right; right; left. exists (error s), (isDragging s). cbn.
      split; [apply Hsame|]. auto.
    + right; right; right. now exists err.
  - left. now exists pageNum.
  - unfold handlePageInput. destruct (parseInt env value) as [|n|b].
    + right; right; left. exists (error s), (isDragging s).
      split; [apply Hsame|]. auto.
    + left. now exists n.
    + right; right; left. exists (error s), (isDragging s).
      split; [apply Hsame|]. auto.
  - destruct files as [|f rest].
    + right; right; left. exists (error s), false. cbn.
      split; [now destruct s|]. auto.
    + destruct (file_type f =? "application/pdf")%string eqn:Hf; unfold exec.
      * rewrite (handleDrop_pdf env f rest s Hf).
        right; left. now exists (file_path f), false.
      * rewrite (handleDrop_other env f rest s Hf).
        right; right; left.
        exists (Some "Please drop a valid PDF file"), false. cbn.
        split; [reflexivity|]. split; [right; eauto|reflexivity].
  - right; right; left. exists (error s), true. cbn.
    split; [now destruct s|]. auto.
  - right; right; left. exists (error s), false. cbn.
    split; [now destruct s|]. auto.
  - unfold clickPrevious, exec.
    destruct ((totalPages s >? 0) && negb ((currentPage s <=? 1) || isLoading s)).
    + left. now eexists.
    + right; right; left. exists (error s), (isDragging s).
      split; [apply Hsame|]. auto.
  - unfold clickNext, exec.
    destruct ((totalPages s >? 0)
              && negb ((currentPage s >=? totalPages s) || isLoading s)).
    + left. now eexists.
    + right; right; left. exists (error s), (isDragging s).
      split; [apply Hsame|]. auto.
Qed.

Lemma handle_consistent_step env a s :
  handle_consistent s -> handle_consistent (step s (env, a)).
Proof.
  intros Hs. unfold handle_consistent in *.
  destruct (step_shape env a s)
    as [(n & E)|[(p & d & E)|[(e & d & E & _)|(err & E)]]]; rewrite E.
  - destruct (goToPage_cells env n s) as (_ & Ht & Hi & _).
    now rewrite Hi, Ht.
  - destruct (loadPdf_state env p (setCurrentPage 1 (setIsDragging d s)))
      as (_ & _ & H).
    destruct (getDocument env (documentSource p)).
    + destruct H as (Ht & Hi & _). now rewrite Hi, Ht.
    + destruct H as (Ht & Hi & _). rewrite Hi, Ht. exact Hs.
  - exact Hs.
  - exact Hs.
Qed.

(** X2.  The page count shown is the one of the document held: every action
    keeps [totalPages] equal to [numPages] of [pdfInstance.current] (0 while
    there is none), so it is after every sequence of actions, and a page
    number the guard of [goToPage] lets through is a page of the document
    held. *)
Theorem handle_consistent_holds :
  (forall env a s,
     handle_consistent s -> handle_consistent (step s (env, a))) /\
  (forall trace, handle_consistent (run trace initial)) /\
  (forall trace n pdf,
     pdfInstance (run trace initial) = Some pdf ->
     goToPage_rejects (run trace initial) n = false ->
     1 <= n <= numPages pdf).
Proof.
  assert (Hrun : forall trace, handle_consistent (run trace initial)).
  { intros trace. induction trace as [|[env a] trace IH] using rev_ind.
    - reflexivity.
    - rewrite run_snoc. now apply handle_consistent_step. }
  split; [exact handle_consistent_step|]. split; [exact Hrun|].
  intros trace n pdf Hpdf Hg. specialize (Hrun trace).
  unfold handle_consistent in Hrun. rewrite Hpdf in Hrun. rewrite <- Hrun.
  destruct (Z_le_gt_dec 1 n) as [H1|H1];
    [destruct (Z_le_gt_dec n (totalPages (run trace initial))) as [H2|H2]|];
    [lia| |];
    (assert (Ht : goToPage_rejects (run trace initial) n = true)
       by (apply goToPage_rejects_spec; right; lia));
    congruence.
Qed.

Lemma handle_consistent_holds_witness :
  handle_consistent Samples.onPage3 /\
  handle_consistent (step Samples.onPage3 (Samples.unrenderable, OpenPdf)).
Proof.
  assert (H : handle_consistent Samples.onPage3) by (vm_compute; reflexivity).
  split; [exact H|].
  exact (proj1 handle_consistent_holds Samples.unrenderable OpenPdf
           Samples.onPage3 H).
Defined.

Lemma error_shown_step env a s :
  error_shown s -> error_shown (step s (env, a)).
Proof.
  intros Hs. unfold error_shown in *.
  destruct (step_shape env a s)
    as [(n & E)|[(p & d & E)|[(e & d & E & [He|(m & He & Hm)] & _)|(err & E)]]];
    rewrite E.
  - destruct (goToPage_cells env n s) as (_ & _ & _ & _ & [He|(err & He)]);
      rewrite He; [exact Hs | reflexivity].
  - destruct (loadPdf_cells env p (setCurrentPage 1 (setIsDragging d s)))
      as (_ & [He|(err & He)]); rewrite He; [exact I | reflexivity].
  - subst e. exact Hs.
  - subst e. exact Hm.
  - reflexivity.
Qed.

(** X3.  An error that is set is never the empty string, which the markup
    would not show: every action keeps this, so after every sequence of
    actions a set error is the status. *)
Theorem error_shown_holds :
  (forall env a s, error_shown s -> error_shown (step s (env, a))) /\
  (forall trace, error_shown (run trace initial)) /\
  (forall trace m,
     error (run trace initial) = Some m -> status (run trace initial) = Error m).
Proof.
  assert (Hrun : forall trace, error_shown (run trace initial)).
  { intros trace. induction trace as [|[env a] trace IH] using rev_ind.
    - exact I.
    - rewrite run_snoc. now apply error_shown_step. }
  split; [exact error_shown_step|]. split; [exact Hrun|].
  intros trace m Hm. specialize (Hrun trace).
  unfold error_shown in Hrun. unfold status. rewrite Hm in *. now rewrite Hrun.
Qed.

Lemma error_shown_holds_witness :
  error_shown Samples.onPage3 /\
  error_shown (step Samples.onPage3 (Samples.corrupt, OpenPdf)).
Proof.
  assert (H : error_shown Samples.onPage3) by (vm_compute; exact I).
  split; [exact H|].
  exact (proj1 error_shown_holds Samples.corrupt OpenPdf Samples.onPage3 H).
Defined.


(** *** Loading *)

Lemma sourceText_documentSource p : sourceText (documentSource p) = p.
Proof.
  unfold documentSource.
  destruct (startsWith p "blob:" || startsWith p "http" || startsWith p "file:");
    reflexivity.
Qed.

(** X4.  [loadPdf] gives the library the text it was given, unchanged, in
    one [getDocument] call, the first call of the run.  Nothing follows when
    the document is refused or no container is attached; otherwise page 1 is
    requested once, followed by one render call for the page returned when a
    2D context exists.  No other page is requested or rendered. *)
Theorem loadPdf_library_calls env p s :
  let s' := exec (loadPdf env p) s in
  sourceText (documentSource p) = p /\
  exists l,
    issued s s' (CallGetDocument (documentSource p) :: l) /\
    match getDocument env (documentSource p) with
    | Rejected _ => l = []
    | Resolved pdf =>
        match viewerContainer s with
        | None => l = []
        | Some _ =>
            l = CallGetPage 1 ::
                match getPage pdf 1 with
                | Resolved page =>
                    if getContext2d env
                    then [CallRender page
                            (renderParameters env
                               (getViewport page 1.5%float))]
                    else []
                | Rejected _ => []
                end
        end
    end.
Proof.
  split; [apply sourceText_documentSource|].
  unfold issued, loadPdf, renderPage. unfold_monad. cbn.
  destruct (getDocument env (documentSource p)) as [pdf|err]; cbn.
  - destruct (viewerContainer s); cbn.
    + destruct (getPage pdf 1) as [page|e]; cbn.
      * destruct (getContext2d env); cbn.
        -- eexists. split; [|reflexivity].
           destruct (render page _); cbn; now repeat rewrite <- app_assoc.
        -- eexists. split; [|reflexivity]. now repeat rewrite <- app_assoc.
      * eexists. split; [|reflexivity]. now repeat rewrite <- app_assoc.
    + now exists [].
  - now exists [].
Qed.

(** X5.  A load the library refuses leaves the document handle, the page
    count, the title, the container and the current page as they were, after
    a single library call; [goToPage] accepts afterwards exactly the page
    numbers it accepted before. *)
Theorem failed_load_keeps_document env p s err :
  getDocument env (documentSource p) = Rejected err ->
  let s' := exec (loadPdf env p) s in
  pdfInstance s' = pdfInstance s /\
  totalPages s' = totalPages s /\
  title s' = title s /\
  viewerContainer s' = viewerContainer s /\
  currentPage s' = currentPage s /\
  issued s s' [CallGetDocument (documentSource p)] /\
  (forall n, goToPage_rejects s' n = goToPage_rejects s n).
Proof.
  intros Hd s'. subst s'.
  destruct (loadPdf_state env p s) as (Hc & _ & H). rewrite Hd in H.
  destruct H as (Ht & Hi & Hti & _ & Hcalls & Hv).
  repeat split; auto.
  intros n. unfold goToPage_rejects. now rewrite Hi, Ht.
Qed.

Lemma failed_load_keeps_document_witness :
  let s' := exec (loadPdf Samples.corrupt "/docs/notes.pdf") Samples.onPage3 in
  pdfInstance s' = pdfInstance Samples.onPage3 /\
  goToPage_rejects s' 4 = goToPage_rejects Samples.onPage3 4.
Proof.
  destruct (failed_load_keeps_document Samples.corrupt "/docs/notes.pdf"
              Samples.onPage3 (ErrorObject "Invalid PDF structure.") eq_refl)
    as (Hi & _ & _ & _ & _ & _ & Hg).
  split; [exact Hi | exact (Hg 4)].
Defined.

(** *** The title *)

Lemma append_one cur c rest :
  ((cur ++ String c EmptyString) ++ rest)%string = (cur ++ String c rest)%string.
Proof. induction cur as [|a cur IH]; cbn; [reflexivity | now rewrite IH]. Qed.

Lemma append_empty s : (s ++ "")%string = s.
Proof. induction s as [|a s IH]; cbn; [reflexivity | now rewrite IH]. Qed.

Lemma has_separator_app a b :
  has_separator (a ++ b) = has_separator a || has_separator b.
Proof.
  induction a as [|c a IH]; cbn; [reflexivity|].
  now rewrite IH, orb_assoc.
Qed.

Lemma last_segment_plain cur s :
  has_separator s = false -> last_segment cur s = (cur ++ s)%string.
Proof.
  revert cur. induction s as [|c s IH]; intros cur H; cbn in *.
  - now rewrite append_empty.
  - apply orb_false_iff in H. destruct H as [Hc Hs].
    rewrite Hc, (IH _ Hs). apply append_one.
Qed.

Lemma last_segment_after cur a sep b :
  is_path_separator sep = true ->
  last_segment cur (a ++ String sep b) = last_segment "" b.
Proof.
  intros Hsep. revert cur. induction a as [|c a IH]; intros cur; cbn.
  - now rewrite Hsep.
  - destruct (is_path_separator c); apply IH.
Qed.

Lemma last_segment_clean cur s :
  has_separator cur = false -> has_separator (last_segment cur s) = false.
Proof.
  revert cur. induction s as [|c s IH]; intros cur H; cbn; [exact H|].
  destruct (is_path_separator c) eqn:Hc.
  - now apply IH.
  - apply IH. rewrite has_separator_app, H. cbn. now rewrite Hc.
Qed.

(** X6.  The title is the file name: the text after the last slash or
    backslash of the path.  After a load the library accepts, the title is
    that text, or [PDF Document] when it is empty; it is never empty and
    holds no slash or backslash. *)
Theorem title_is_file_name :
  (forall dir sep name,
     is_path_separator sep = true ->
     has_separator name = false ->
     split_pop (dir ++ String sep name) = name) /\
  (forall name, has_separator name = false -> split_pop name = name) /\
  (forall env p s pdf,
     getDocument env (documentSource p) = Resolved pdf ->
     let t := title (exec (loadPdf env p) s) in
     t = or_string (split_pop p) "PDF Document" /\
     truthy t = true /\
     has_separator t = false).
Proof.
  split; [|split].
  - intros dir sep name Hsep Hname. unfold split_pop.
    rewrite (last_segment_after "" dir sep name Hsep).
    now rewrite (last_segment_plain "" name Hname).
  - intros name Hname. unfold split_pop.
    now rewrite (last_segment_plain "" name Hname).
  - intros env p s pdf Hd t. subst t.
    destruct (loadPdf_state env p s) as (_ & _ & H). rewrite Hd in H.
    destruct H as (_ & _ & Ht). rewrite Ht.
    split; [reflexivity|]. unfold or_string.
    destruct (truthy (split_pop p)) eqn:E.
    + split; [exact E|]. now apply last_segment_clean.
    + split; reflexivity.
Qed.

Lemma title_is_file_name_witness :
  split_pop ("C:\docs" ++ String "\"%char "report.pdf") = "report.pdf" /\
  title (exec (loadPdf Samples.desktop "/docs/report.pdf") initial)
    = "report.pdf".
Proof.
  split.
  - exact (proj1 title_is_file_name "C:\docs" "\"%char "report.pdf"
             eq_refl eq_refl).
  - exact (proj1 (proj2 (proj2 title_is_file_name) Samples.desktop
                    "/docs/report.pdf" initial Samples.fivePages eq_refl)).
Defined.


(** *** The page buttons *)

(** X7.  With a document loaded and no load in progress, Next on a page
    before the last moves to the next page and Previous then returns to the
    page it started from, whatever the rendering does.  Next on the last
    page or while loading, and Previous on the first page, while loading or
    without pages, change nothing. *)
Theorem page_buttons :
  (forall env1 env2 s pdf,
     pdfInstance s = Some pdf ->
     isLoading s = false ->
     1 <= currentPage s < totalPages s ->
     let s1 := exec (clickNext env1) s in
     currentPage s1 = currentPage s + 1 /\
     currentPage (exec (clickPrevious env2) s1) = currentPage s) /\
  (forall env s,
     currentPage s >= totalPages s \/ isLoading s = true ->
     clickNext env s = (Resolved tt, s)) /\
  (forall env s,
     currentPage s <= 1 \/ isLoading s = true \/ totalPages s <= 0 ->
     clickPrevious env s = (Resolved tt, s)).
Proof.
  split; [|split].
  - intros env1 env2 s pdf Hpdf Hl Hc s1.
    assert (Hg : goToPage_rejects s (currentPage s + 1) = false).
    { destruct (goToPage_rejects s (currentPage s + 1)) eqn:Hg; [|reflexivity].
      apply goToPage_rejects_spec in Hg. rewrite Hpdf in Hg.
      destruct Hg as [Hg|Hg]; [discriminate|lia]. }
    assert (E1 : s1 = exec (goToPage env1 (currentPage s + 1)) s).
    { subst s1. unfold clickNext, exec. rewrite Hl.
      replace (totalPages s >? 0) with true by (symmetry; apply Z.gtb_gt; lia).
      replace (currentPage s >=? totalPages s) with false
        by (symmetry; rewrite Z.geb_leb; apply Z.leb_gt; lia).
      reflexivity. }
    destruct (goToPage_accepted env1 s (currentPage s + 1) Hg)
      as (Hc1 & Ht1 & Hl1 & Hp1 & _).
    rewrite <- E1 in Hc1, Ht1, Hl1, Hp1.
    split; [exact Hc1|].
    assert (Hg2 : goToPage_rejects s1 (currentPage s1 - 1) = false).
    { destruct (goToPage_rejects s1 (currentPage s1 - 1)) eqn:Hg2;
        [|reflexivity].
      apply goToPage_rejects_spec in Hg2. rewrite Hp1, Hpdf in Hg2.
      destruct Hg2 as [Hg2|Hg2]; [discriminate|lia]. }
    assert (E2 : exec (clickPrevious env2) s1
                 = exec (goToPage env2 (currentPage s1 - 1)) s1).
    { unfold clickPrevious, exec. rewrite Hl1.
      replace (totalPages s1 >? 0) with true by (symmetry; apply Z.gtb_gt; lia).
      replace (currentPage s1 <=? 1) with false
        by (symmetry; apply Z.leb_gt; lia).
      reflexivity. }
    rewrite E2.
    destruct (goToPage_accepted env2 s1 (currentPage s1 - 1) Hg2) as (Hc2 & _).
    rewrite Hc2. lia.
  - intros env s H. unfold clickNext.
    replace ((currentPage s >=? totalPages s) || isLoading s) with true;
      [now rewrite andb_false_r|].
    symmetry. apply orb_true_iff.
    destruct H as [H|H]; [left; rewrite Z.geb_leb; apply Z.leb_le; lia | now right].
  - intros env s H. unfold clickPrevious.
    destruct H as [H|[H|H]].
    + replace (currentPage s <=? 1) with true by (symmetry; apply Z.leb_le; lia).
      now rewrite andb_false_r.
    + rewrite H, orb_true_r. now rewrite andb_false_r.
    + replace (totalPages s >? 0) with false; [reflexivity|].
      symmetry. rewrite Z.gtb_ltb. apply Z.ltb_ge. lia.
Qed.

Lemma page_buttons_witness :
  let s1 := exec (clickNext Samples.desktop) Samples.onPage3 in
  currentPage s1 = 4 /\
  currentPage (exec (clickPrevious Samples.unrenderable) s1) = 3.
Proof.
  assert (Hp : pdfInstance Samples.onPage3 = Some Samples.fivePages)
    by (vm_compute; reflexivity).
  assert (Hl : isLoading Samples.onPage3 = false) by (vm_compute; reflexivity).
  destruct onPage3_state as [Ht Hc].
  assert (Hr : 1 <= currentPage Samples.onPage3 < totalPages Samples.onPage3)
    by (rewrite Ht, Hc; lia).
  destruct (proj1 page_buttons Samples.desktop Samples.unrenderable
              Samples.onPage3 Samples.fivePages Hp Hl Hr) as [H1 H2].
  rewrite Hc in H1, H2. split; [exact H1 | exact H2].
Defined.

(** *** The drag highlight *)

(** X8.  The drag highlight follows the drag events only: it is on after a
    drag over, off after a drag leave and after every drop, whatever the
    dropped files and whatever the load does, and every other action leaves
    it as it was. *)
Theorem isDragging_follows_drag_events env a s :
  isDragging (step s (env, a)) =
    match a with
    | DragOver => true
    | DragLeave | Drop _ => false
    | _ => isDragging s
    end.
Proof.
  destruct a.
  - unfold step. cbn [fst snd perform].
    destruct (handleOpenPdf_cases env s)
      as [(p & _ & E)|[(o & E & _)|(err & _ & _ & E)]];
      unfold exec; rewrite E; try reflexivity.
    now destruct (loadPdf_cells env p (setCurrentPage 1 s)) as [H _].
  - unfold step. cbn [fst snd perform].
    now destruct (goToPage_cells env pageNum s) as (_ & _ & _ & H & _).
  - unfold step. cbn [fst snd perform]. unfold handlePageInput.
    destruct (parseInt env value) as [|n|b]; [reflexivity| |reflexivity].
    now destruct (goToPage_cells env n s) as (_ & _ & _ & H & _).
  - unfold step. cbn [fst snd perform].
    destruct files as [|f rest]; [reflexivity|].
    destruct (file_type f =? "application/pdf")%string eqn:Hf; unfold exec.
    + rewrite (handleDrop_pdf env f rest s Hf).
      now destruct (loadPdf_cells env (file_path f)
                      (setCurrentPage 1 (setIsDragging false s))) as [H _].
    + now rewrite (handleDrop_other env f rest s Hf).
  - reflexivity.
  - reflexivity.
  - unfold step. cbn [fst snd perform]. unfold clickPrevious, exec.
    destruct ((totalPages s >? 0) && negb ((currentPage s <=? 1) || isLoading s));
      [|reflexivity].
    now destruct (goToPage_cells env (currentPage s - 1) s)
      as (_ & _ & _ & H & _).
  - unfold step. cbn [fst snd perform]. unfold clickNext, exec.
    destruct ((totalPages s >? 0)
              && negb ((currentPage s >=? totalPages s) || isLoading s));
      [|reflexivity].
    now destruct (goToPage_cells env (currentPage s + 1) s)
      as (_ & _ & _ & H & _).
Qed.

(** *** What [goToPage] leaves alone *)

(** X9.  [goToPage] never changes the title, the page count or the
    document handle, and a navigation whose page is drawn leaves [error] as
    it was: an earlier error message stays. *)
Theorem goToPage_keeps env n s :
  let s' := exec (goToPage env n) s in
  title s' = title s /\
  totalPages s' = totalPages s /\
  pdfInstance s' = pdfInstance s /\
  (forall pdf,
     pdfInstance s = Some pdf -> rendersPage env pdf n -> error s' = error s).
Proof.
  destruct (goToPage_cells env n s) as (H1 & H2 & H3 & _).
  split; [exact H1|]. split; [exact H2|]. split; [exact H3|].
  intros pdf Hpdf (page & Hpage & Hctx & Hrender).
  unfold goToPage, exec. destruct (goToPage_rejects s n); [reflexivity|].
  unfold renderPage. unfold_monad. cbn.
  destruct (viewerContainer s); cbn; [|reflexivity].
  rewrite Hpdf. cbn. rewrite Hpage. cbn. rewrite Hctx. cbn.
  now rewrite Hrender.
Qed.

Lemma goToPage_keeps_witness :
  let failed := exec (handleOpenPdf Samples.corrupt) Samples.onPage3 in
  error (exec (goToPage Samples.desktop 2) failed)
    = Some "Error loading PDF: Invalid PDF structure.".
Proof.
  assert (Hp : pdfInstance (exec (handleOpenPdf Samples.corrupt)
                              Samples.onPage3) = Some Samples.fivePages)
    by (vm_compute; reflexivity).
  assert (Hr : rendersPage Samples.desktop Samples.fivePages 2)
    by (exists Samples.letterPage; repeat split).
  exact (proj2 (proj2 (proj2 (goToPage_keeps Samples.desktop 2
           (exec (handleOpenPdf Samples.corrupt) Samples.onPage3))))
           Samples.fivePages Hp Hr).
Defined.


End MainPageMore.

(* ------------------------------------------------------------------ *)
(** ** More proofs about App and PdfViewer *)

Module AppMore.

Import Js PdfJs App Conditions AppProofs.

(** *** Opening a document in [App] *)

Lemma loadPdf_result env p s :
  loadPdf env p s =
    (Resolved tt,
     match importPdfjs env with
     | Rejected _ =>
         console_error "Error loading PDF:"
           (setError (Some "Failed to load PDF. Please try another file.")
              s)
     | Resolved _ =>
         match getDocument env (SrcString p) with
         | Resolved pdf =>
             setError None
               (setPdfUrl (Some p)
                  (setNumPages (PdfJs.numPages pdf)
                     (logCall (CallGetDocument (SrcString p)) s)))
         | Rejected _ =>
             console_error "Error loading PDF:"
               (setError
                  (Some "Failed to load PDF. Please try another file.")
                  (logCall (CallGetDocument (SrcString p)) s))
         end
     end).
Proof.
  unfold loadPdf. unfold_monad. cbn.
  destruct (importPdfjs env) as [[]|]; cbn; [|reflexivity].
  destruct (getDocument env (SrcString p)); reflexivity.
Qed.

(** X11.  When the dialog of [App] returns a path: if the library is
    imported and parses the file, the path and the page count are stored,
    the error is cleared and [PdfViewer] is shown with that file, the current
    page and the scale; otherwise the fixed message is set, the path and the
    page count are as they were, and [PdfViewer] is not shown. *)
Theorem app_open_result env s p :
  electronAPI_openPdf env = Some (Resolved (Some p)) ->
  truthy p = true ->
  let s' := exec (handleOpenPdf env) s in
  match importPdfjs env, getDocument env (SrcString p) with
  | Resolved _, Resolved pdf =>
      pdfUrl s' = Some p /\
      numPages s' = PdfJs.numPages pdf /\
      error s' = None /\
      viewerProps s' =
        Some {| file := p; pageNumber := currentPage s;
                scale_prop := scale s |}
  | _, _ =>
      error s' = Some "Failed to load PDF. Please try another file." /\
      pdfUrl s' = pdfUrl s /\
      numPages s' = numPages s /\
      viewerProps s' = None
  end.
Proof.
  intros Ha Hp s'. subst s'.
  unfold handleOpenPdf, exec, try_catch, bind, await. rewrite Ha, Hp.
  rewrite loadPdf_result. cbn [snd].
  destruct (importPdfjs env) as [[]|]; cbn.
  - destruct (getDocument env (SrcString p)) as [pdf|]; cbn.
    + unfold viewerProps. cbn. rewrite Hp. auto.
    + auto.
  - destruct (getDocument env (SrcString p)); auto.
Qed.


Lemma app_open_result_witness :
  let s' :=
    exec (handleOpenPdf (Samples.appEnv (Resolved (Some "/docs/report.pdf"))))
         initial in
  pdfUrl s' = Some "/docs/report.pdf" /\ numPages s' = 5.
Proof.
  destruct (app_open_result
              (Samples.appEnv (Resolved (Some "/docs/report.pdf")))
              initial "/docs/report.pdf" eq_refl eq_refl) as (H1 & H2 & _).
  split; [exact H1 | exact H2].
Defined.

Lemma handleOpenPdf_result env s :
  exists s', handleOpenPdf env s = (Resolved tt, s') /\
             currentPage s' = currentPage s /\ scale s' = scale s.
Proof.
  unfold handleOpenPdf, try_catch, bind, await, throw, modify, ret.
  destruct (electronAPI_openPdf env) as [[[p|]|err]|]; cbn;
    try (eexists; split; [reflexivity|]; split; reflexivity).
  destruct (truthy p); [|eexists; split; [reflexivity|]; split; reflexivity].
  rewrite loadPdf_result. eexists. split; [reflexivity|].
  destruct (importPdfjs env) as [[]|]; [|split; reflexivity].
  destruct (getDocument env (SrcString p)); split; reflexivity.
Qed.

(** X12.  The open-file handler of [App] never changes the current page or
    the scale.  So opening a document with fewer pages than the current page
    number leaves the current page beyond the page count. *)
Theorem app_open_keeps_current_page :
  (forall env s,
     currentPage (exec (handleOpenPdf env) s) = currentPage s /\
     scale (exec (handleOpenPdf env) s) = scale s) /\
  (forall env s p pdf,
     electronAPI_openPdf env = Some (Resolved (Some p)) ->
     truthy p = true ->
     importPdfjs env = Resolved tt ->
     getDocument env (SrcString p) = Resolved pdf ->
     PdfJs.numPages pdf < currentPage s ->
     ~ app_in_range (exec (handleOpenPdf env) s)).
Proof.
  split.
  - intros env s. destruct (handleOpenPdf_result env s) as (s' & E & H).
    unfold exec. rewrite E. exact H.
  - intros env s p pdf Ha Hp Hi Hd Hlt.
    unfold app_in_range, handleOpenPdf, exec, try_catch, bind, await.
    rewrite Ha, Hp, loadPdf_result, Hi, Hd. cbn. lia.
Qed.

Lemma app_open_keeps_current_page_witness :
  currentPage MoreSamples.onPage4 = 4 /\
  ~ app_in_range (exec (handleOpenPdf MoreSamples.shortDocument)
                    MoreSamples.onPage4).
Proof.
  assert (Hc : currentPage MoreSamples.onPage4 = 4)
    by (vm_compute; reflexivity).
  split; [exact Hc|].
  apply (proj2 app_open_keeps_current_page MoreSamples.shortDocument
           MoreSamples.onPage4 "/docs/scan.pdf" Samples.threeBrokenPages
           eq_refl eq_refl eq_refl eq_refl).
  rewrite Hc. cbn. lia.
Defined.

(** *** The page buttons of [App] *)

(** X13.  The buttons of [App] keep [1 <= currentPage <= numPages] once it
    holds.  On a page before the last, Next moves to the next page and
    Previous then restores the state; Next on or beyond the last page and
    Previous on or before the first change nothing. *)
Theorem app_page_buttons :
  (forall s,
     app_in_range s ->
     app_in_range (exec clickNext s) /\
     app_in_range (exec clickPrevious s)) /\
  (forall s,
     hasDocument s = true ->
     1 <= currentPage s < numPages s ->
     currentPage (exec clickNext s) = currentPage s + 1 /\
     exec clickPrevious (exec clickNext s) = s) /\
  (forall s, currentPage s >= numPages s -> clickNext s = (Resolved tt, s)) /\
  (forall s, currentPage s <= 1 -> clickPrevious s = (Resolved tt, s)).
Proof.
  split; [|split; [|split]].
  - intros s Hs. unfold app_in_range, clickNext, clickPrevious, exec in *.
    split.
    + destruct (hasDocument s && negb (currentPage s >=? numPages s));
        cbn; lia.
    + destruct (hasDocument s && negb (currentPage s <=? 1)); cbn; lia.
  - intros s Hd Hc.
    assert (E : exec clickNext s = setCurrentPage (currentPage s + 1) s).
    { unfold clickNext, exec. rewrite Hd.
      replace (currentPage s >=? numPages s) with false
        by (symmetry; rewrite Z.geb_leb; apply Z.leb_gt; lia).
      cbn. f_equal. lia. }
    rewrite E. split; [reflexivity|].
    unfold clickPrevious, exec.
    change (hasDocument (setCurrentPage (currentPage s + 1) s))
      with (hasDocument s).
    rewrite Hd. cbn [currentPage setCurrentPage].
    replace (currentPage s + 1 <=? 1) with false
      by (symmetry; apply Z.leb_gt; lia).
    cbn. replace (Z.max 1 (currentPage s + 1 - 1)) with (currentPage s) by lia.
    now destruct s.
  - intros s H. unfold clickNext.
    replace (currentPage s >=? numPages s) with true
      by (symmetry; rewrite Z.geb_leb; apply Z.leb_le; lia).
    now rewrite andb_false_r.
  - intros s H. unfold clickPrevious.
    replace (currentPage s <=? 1) with true by (symmetry; apply Z.leb_le; lia).
    now rewrite andb_false_r.
Qed.

Lemma app_page_buttons_witness :
  currentPage (exec clickNext Samples.opened) = 2 /\
  exec clickPrevious (exec clickNext Samples.opened) = Samples.opened.
Proof.
  assert (Hd : hasDocument Samples.opened = true) by (vm_compute; reflexivity).
  assert (Hc : 1 <= currentPage Samples.opened < numPages Samples.opened)
    by (vm_compute; split; [discriminate | reflexivity]).
  exact (proj1 (proj2 app_page_buttons) Samples.opened Hd Hc).
Defined.

(** *** [PdfViewer] *)

(** The same when the page is not delivered: the element is the container
    again and holds what was appended to it before. *)
Lemma loadCycle_fails env props v :
  pageLoadFails env props ->
  let v' := exec (loadCycle env props) v in
  pdfPage v' = pdfPage v /\ loading v' = false /\
  container v' = Some (appended v) /\
  (exists l, viewer_calls v' = (viewer_calls v ++ l)%list /\ renders l = []) /\
  viewer_console v' =
    (viewer_console v ++ ["Error loading PDF page:"])%list.
Proof.
  unfold pageLoadFails, loadCycle, loadPage, renderEffect, container.
  intros Hf. unfold_monad. cbn.
  destruct (importPdfjs env) as [[]|]; cbn.
  - destruct (getDocument env (SrcString (file props))) as [pdf|]; cbn.
    + destruct (getPage pdf (pageNumber props)); [contradiction|]. cbn.
      rewrite Nat.eqb_refl. cbn. repeat split.
      eexists. rewrite <- app_assoc. split; reflexivity.
    + rewrite Nat.eqb_refl. cbn. repeat split.
      eexists. split; reflexivity.
  - rewrite Nat.eqb_refl. cbn. repeat split.
    exists []. now rewrite app_nil_r.
Qed.

(** X14.  Mounting [PdfViewer] on a page the library delivers makes three
    library calls, the document, the page and one render; it leaves the page
    held, the loading flag down and one canvas of the size of the viewport at
    the scale given. *)
Theorem viewer_mount_draws env props pdf page :
  importPdfjs env = Resolved tt ->
  getDocument env (SrcString (file props)) = Resolved pdf ->
  getPage pdf (pageNumber props) = Resolved page ->
  let v := mount env props in
  let viewport := getViewport page (scale_prop props) in
  pdfPage v = Some page /\ loading v = false /\
  container v = Some [Dom.CanvasNode (viewerCanvas viewport)] /\
  viewer_calls v =
    [CallGetDocument (SrcString (file props));
     CallGetPage (pageNumber props);
     CallRender page (viewerRenderParameters env viewport)] /\
  viewer_console v = [].
Proof.
  intros Hi Hd Hg. unfold mount.
  exact (loadCycle_draws env props (commit unmounted) pdf page Hi Hd Hg).
Qed.

Lemma viewer_mount_draws_witness :
  pdfPage Samples.shown = Some Samples.letterPage /\
  loading Samples.shown = false.
Proof.
  destruct (viewer_mount_draws (Samples.appEnv (Resolved None))
              Samples.reportProps Samples.fivePages Samples.letterPage
              eq_refl eq_refl eq_refl) as (H1 & H2 & _).
  split; [exact H1 | exact H2].
Defined.

Lemma update_loads env old new v :
  (file old =? file new)%string && (pageNumber old =? pageNumber new) = false ->
  Object_is (scale_prop old) (scale_prop new) = true ->
  exec (update env old new) v = exec (loadCycle env new) (commit v).
Proof.
  intros Hdeps Hscale. unfold update, exec, bind, modify, ret.
  now rewrite Hscale, Hdeps.
Qed.

(** X15.  When the file or the page number given to [PdfViewer] changes and
    the library delivers the new page, the document is opened again, the
    page is requested and rendered once at the scale given, and the container
    holds the one new canvas. *)
Theorem viewer_page_change env old new v pdf page :
  (file old =? file new)%string && (pageNumber old =? pageNumber new) = false ->
  Object_is (scale_prop old) (scale_prop new) = true ->
  importPdfjs env = Resolved tt ->
  getDocument env (SrcString (file new)) = Resolved pdf ->
  getPage pdf (pageNumber new) = Resolved page ->
  let v' := exec (update env old new) v in
  let viewport := getViewport page (scale_prop new) in
  pdfPage v' = Some page /\ loading v' = false /\
  container v' = Some [Dom.CanvasNode (viewerCanvas viewport)] /\
  viewer_calls v' =
    (viewer_calls v ++
     [CallGetDocument (SrcString (file new));
      CallGetPage (pageNumber new);
      CallRender page (viewerRenderParameters env viewport)])%list.
Proof.
  intros Hdeps Hscale Hi Hd Hg v' viewport. subst v'.
  rewrite (update_loads env old new v Hdeps Hscale).
  destruct (loadCycle_draws env new (commit v) pdf page Hi Hd Hg)
    as (H1 & H2 & H3 & H4 & _).
  repeat split; auto.
Qed.

Lemma viewer_page_change_witness :
  let v' := exec (update (Samples.appEnv (Resolved None))
                    Samples.reportProps MoreSamples.secondPage)
                 Samples.shown in
  pdfPage v' = Some Samples.letterPage /\ loading v' = false.
Proof.
  destruct (viewer_page_change (Samples.appEnv (Resolved None))
              Samples.reportProps MoreSamples.secondPage Samples.shown
              Samples.fivePages Samples.letterPage
              eq_refl eq_refl eq_refl eq_refl eq_refl) as (H1 & H2 & _).
  split; [exact H1 | exact H2].
Defined.

(** X16.  When the library does not deliver the page, [PdfViewer] only
    writes to the console and renders nothing, and the loading flag ends
    down.  On mount it holds no page and the container is empty.  After a
    change of file or page number it keeps holding the page it had, and the
    container keeps the nodes appended to it before, so the canvas of the
    previous page stays in the document. *)
Theorem viewer_page_load_failure :
  (forall env props,
     pageLoadFails env props ->
     let v := mount env props in
     pdfPage v = None /\ loading v = false /\ container v = Some [] /\
     renders (viewer_calls v) = [] /\
     viewer_console v = ["Error loading PDF page:"]) /\
  (forall env old new v,
     (file old =? file new)%string && (pageNumber old =? pageNumber new)
       = false ->
     Object_is (scale_prop old) (scale_prop new) = true ->
     pageLoadFails env new ->
     let v' := exec (update env old new) v in
     pdfPage v' = pdfPage v /\ loading v' = false /\
     container v' = Some (appended v) /\
     (exists l,
        viewer_calls v' = (viewer_calls v ++ l)%list /\ renders l = []) /\
     viewer_console v' =
       (viewer_console v ++ ["Error loading PDF page:"])%list).
Proof.
  split.
  - intros env props Hf v. subst v. unfold mount.
    destruct (loadCycle_fails env props (commit unmounted) Hf)
      as (H1 & H2 & H3 & (l & H4 & H5) & H6).
    change (exec (modify commit;; renderEffect env props;; loadCycle env props)
              unmounted)
      with (exec (loadCycle env props) (commit unmounted)).
    repeat split; auto. rewrite H4. exact H5.
  - intros env old new v Hdeps Hscale Hf v'. subst v'.
    rewrite (update_loads env old new v Hdeps Hscale).
    destruct (loadCycle_fails env new (commit v) Hf)
      as (H1 & H2 & H3 & (l & H4 & H5) & H6).
    repeat split; auto. now exists l.
Qed.

Lemma viewer_page_load_failure_witness :
  let v' := exec (update MoreSamples.noPages
                    Samples.reportProps MoreSamples.secondPage)
                 Samples.shown in
  pdfPage v' = Some Samples.letterPage /\
  container v' = Some (appended Samples.shown).
Proof.
  destruct (proj2 viewer_page_load_failure MoreSamples.noPages
              Samples.reportProps MoreSamples.secondPage Samples.shown
              eq_refl eq_refl I) as (H1 & _ & H3 & _).
  split; [exact H1 | exact H3].
Defined.

(** X17.  Rendering [PdfViewer] again with the same file, the same page
    number and a scale that is the same for [Object.is] runs no effect: the
    viewer and the log of library calls are what they were. *)
Theorem viewer_same_props env old new v :
  file old = file new ->
  pageNumber old = pageNumber new ->
  Object_is (scale_prop old) (scale_prop new) = true ->
  loading v = false ->
  container v <> None ->
  update env old new v = (Resolved tt, v).
Proof.
  intros Hf Hn Hs Hl Hc. unfold update, bind, modify, ret.
  rewrite Hs, Hf, Hn, String.eqb_refl, Z.eqb_refl. cbn.
  now rewrite (commit_settled v Hl Hc).
Qed.

Lemma viewer_same_props_witness :
  update (Samples.appEnv (Resolved None)) Samples.reportProps
    Samples.reportProps Samples.shown = (Resolved tt, Samples.shown).
Proof.
  apply viewer_same_props; try reflexivity.
  vm_compute. discriminate.
Defined.

End AppMore.

(* ------------------------------------------------------------------ *)
(** ** More facts about both components *)

Module BothMore.

Import Js PdfJs.

(** X18.  No handler lets an exception escape, whatever the dialog, the
    library and the canvas answer: no action of [MainPage] ends with a
    rejected promise.  Every action of [MainPage] completes, with one
    exception: the open-file handler outside Electron or without the bridge,
    when no file is chosen, leaves the state as it was and its promise
    pending for ever.  The open-file handler and [loadPdf] of [App] and the
    page-loading effect of [PdfViewer] always complete. *)
Theorem handlers_always_resolve :
  (forall env a s err, fst (MainPage.perform env a s) <> Rejected err) /\
  (forall env a s,
     fst (MainPage.perform env a s) = Resolved tt \/
     a = MainPage.OpenPdf /\
     (MainPage.processType env = false \/
      MainPage.electronAPI_openPdf env = None) /\
     MainPage.fileInput env = None /\
     MainPage.perform env a s = (Pending, s)) /\
  (forall env s, fst (App.handleOpenPdf env s) = Resolved tt) /\
  (forall env p s, fst (App.loadPdf env p s) = Resolved tt) /\
  (forall env props v, fst (App.loadPage env props v) = Resolved tt).
Proof.
  split; [|split; [exact MainPageMore.perform_completes|]].
  - intros env a s err.
    destruct (MainPageMore.perform_completes env a s) as [E|(_ & _ & _ & E)];
      rewrite E; discriminate.
  - split; [|split].
    + intros env s.
      destruct (AppMore.handleOpenPdf_result env s) as (s' & E & _).
      now rewrite E.
    + intros env p s. now rewrite AppMore.loadPdf_result.
    + intros env props v.
      unfold App.loadPage, try_finally, try_catch, bind, modify, await. cbn.
      destruct (App.importPdfjs env) as [[]|]; cbn; [|reflexivity].
      destruct (App.getDocument env _) as [pdf|]; cbn; [|reflexivity].
      destruct (getPage pdf _); reflexivity.
Qed.

(** X19.  Without the bridge the two components differ.  [App] reads
    [openPdf] off the missing object, catches the exception and sets the
    message of a failed dialog, as it does when the dialog is rejected, and
    so hides [PdfViewer].  [MainPage], without the bridge or outside
    Electron, sets no error: it loads the file of the file input, and when
    none is chosen it changes nothing, its promise staying pending. *)
Theorem missing_bridge :
  (forall env s,
     App.electronAPI_openPdf env = None \/
     (exists err, App.electronAPI_openPdf env = Some (Rejected err)) ->
     App.handleOpenPdf env s =
       (Resolved tt,
        App.console_error "Error opening file dialog:"
          (App.setError (Some "Failed to open file dialog") s)) /\
     App.viewerProps (exec (App.handleOpenPdf env) s) = None) /\
  (forall env s,
     MainPage.electronAPI_openPdf env = None \/
     MainPage.processType env = false ->
     MainPage.handleOpenPdf env s =
       match MainPage.fileInput env with
       | Some fileUrl =>
           MainPage.loadPdf env fileUrl (MainPage.setCurrentPage 1 s)
       | None => (Pending, s)
       end).
Proof.
  split.
  - intros env s H.
    assert (E : App.handleOpenPdf env s =
              (Resolved tt,
               App.console_error "Error opening file dialog:"
                 (App.setError (Some "Failed to open file dialog") s))).
    { unfold App.handleOpenPdf, try_catch, bind, await, throw, modify.
      destruct H as [H|(err & H)]; now rewrite H. }
    split; [exact E|]. unfold exec. now rewrite E.
  - intros env s H.
    destruct (MainPage.fileInput env) as [u|] eqn:Hf.
    + apply MainPageProofs.handleOpenPdf_obtains. right. split; [|exact Hf].
      destruct H; auto.
    + unfold MainPage.handleOpenPdf, MainPage.isElectron.
      destruct H as [H|H]; rewrite H, ?Hf.
      * now destruct (MainPage.processType env).
      * now destruct (MainPage.electronAPI_openPdf env).
Qed.

Lemma missing_bridge_witness :
  MainPage.handleOpenPdf (MoreSamples.browser None) Samples.onPage3
    = (Pending, Samples.onPage3).
Proof.
  exact (proj2 missing_bridge (MoreSamples.browser None) Samples.onPage3
           (or_introl eq_refl)).
Defined.

End BothMore.
